(** * MIC-engineering-prevalence: the text-cleaning and traversal core

    A shallow embedding of [project_files/helpers.py] and
    [project_files/results.py].  Python strings are sequences of Unicode
    code points, Python integers are [Z], Python lists are [list], and a
    raised exception is the [Raise] branch of [result]. *)

From Stdlib Require Import List String Ascii Bool Arith ZArith NArith Lia.
From Stdlib Require Import Decimal DecimalPos DecimalZ.
Import ListNotations.

Set Implicit Arguments.

(** [String] is loaded for literals only; lists keep their own names. *)
Abbreviation length := List.length (only parsing).
Local Open Scope list_scope.

(** ** Python values used by the program *)

Module Py.

(** A character is a code point; a [str] is the sequence of its characters. *)
Definition char := N.
Definition str := list char.

Definition ch (a : ascii) : char := N_of_ascii a.

(** ASCII literals of the source text. *)
Definition py (s : string) : str := map ch (list_ascii_of_string s).

Definition char_eqb (a b : char) : bool := N.eqb a b.

Fixpoint str_eqb (a b : str) : bool :=
  match a, b with
  | [], [] => true
  | x :: a', y :: b' => char_eqb x y && str_eqb a' b'
  | _, _ => false
  end.

(** [x in xs] for a list [xs]. *)
Definition char_in (c : char) (xs : list char) : bool := existsb (char_eqb c) xs.
Definition str_in_list (s : str) (xs : list str) : bool := existsb (str_eqb s) xs.

(** [s.startswith(p)] *)
Fixpoint startswith (s p : str) {struct p} : bool :=
  match p, s with
  | [], _ => true
  | x :: p', y :: s' => char_eqb x y && startswith s' p'
  | _ :: _, [] => false
  end.

(** [sub in s] for strings: [sub] occurs at some offset of [s]. *)
Fixpoint contains (s sub : str) : bool :=
  startswith s sub ||
  match s with
  | [] => false
  | _ :: s' => contains s' sub
  end.

(** [sep.join(xs)] *)
Fixpoint join (sep : str) (xs : list str) : str :=
  match xs with
  | [] => []
  | [x] => x
  | x :: xs' => x ++ sep ++ join sep xs'
  end.

(** [str.isspace] on one character: the Unicode white space that
    [split()] and [strip()] treat as separators. *)
Definition isspace (c : char) : bool :=
  ((9 <=? c) && (c <=? 13) || (28 <=? c) && (c <=? 32) ||
   (c =? 133) || (c =? 160) || (c =? 5760) ||
   (8192 <=? c) && (c <=? 8202) || (c =? 8232) || (c =? 8233) ||
   (c =? 8239) || (c =? 8287) || (c =? 12288))%N.

(** [s.split()]: maximal runs of non-space characters, in order. *)
Fixpoint split_ws_aux (cur : str) (s : str) : list str :=
  match s with
  | [] => match cur with [] => [] | _ => [cur] end
  | c :: s' =>
      if isspace c
      then match cur with
           | [] => split_ws_aux [] s'
           | _ => cur :: split_ws_aux [] s'
           end
      else split_ws_aux (cur ++ [c]) s'
  end.

Definition split_ws (s : str) : list str := split_ws_aux [] s.

(** [s.strip()] *)
Fixpoint lstrip (s : str) : str :=
  match s with
  | c :: s' => if isspace c then lstrip s' else s
  | [] => []
  end.

Definition rstrip (s : str) : str := List.rev (lstrip (List.rev s)).
Definition strip (s : str) : str := rstrip (lstrip s).

(** Exceptions the program can meet. *)
Inductive exn :=
| AttributeError
| ValueError
| KeyError
| ZeroDivisionError
| FileNotFoundError.

Inductive result (A : Type) :=
| Ok (a : A)
| Raise (e : exn).

Arguments Ok {A} a.
Arguments Raise {A} e.

(** [s.split(sep)] for a non-empty [sep]: the pieces between the
    occurrences of [sep], found left to right without overlap.  [skip]
    counts the characters of a matched separator still to pass. *)
Fixpoint split_sep_aux (sep cur s : str) (skip : nat) : list str :=
  match s with
  | [] => [cur]
  | c :: s' =>
      match skip with
      | S k => split_sep_aux sep cur s' k
      | O =>
          if startswith s sep
          then cur :: split_sep_aux sep [] s' (length sep - 1)
          else split_sep_aux sep (cur ++ [c]) s' 0
      end
  end.

Definition split_sep (s sep : str) : list str := split_sep_aux sep [] s 0.

(** [s.replace(old, new)] for a non-empty [old]. *)
Fixpoint replace_aux (old new s : str) (skip : nat) : str :=
  match s with
  | [] => []
  | c :: s' =>
      match skip with
      | S k => replace_aux old new s' k
      | O =>
          if startswith s old
          then new ++ replace_aux old new s' (length old - 1)
          else c :: replace_aux old new s' 0
      end
  end.

Definition replace (s old new : str) : str := replace_aux old new s 0.

(** [s[n:]] *)
Definition slice_from (s : str) (n : nat) : str := skipn n s.

(** [len(xs)] *)
Definition len {A : Type} (xs : list A) : Z := Z.of_nat (length xs).

(** [str(n)] for an [int]: its decimal digits, with a minus sign below
    zero. *)
Fixpoint chars_of_uint (u : uint) : str :=
  match u with
  | Nil => []
  | D0 u' => ch "0" :: chars_of_uint u'
  | D1 u' => ch "1" :: chars_of_uint u'
  | D2 u' => ch "2" :: chars_of_uint u'
  | D3 u' => ch "3" :: chars_of_uint u'
  | D4 u' => ch "4" :: chars_of_uint u'
  | D5 u' => ch "5" :: chars_of_uint u'
  | D6 u' => ch "6" :: chars_of_uint u'
  | D7 u' => ch "7" :: chars_of_uint u'
  | D8 u' => ch "8" :: chars_of_uint u'
  | D9 u' => ch "9" :: chars_of_uint u'
  end.

Definition str_of_int (n : Z) : str :=
  match Z.to_int n with
  | Pos u => chars_of_uint u
  | Neg u => ch "-" :: chars_of_uint u
  end.

(** [int(s)] on a decimal literal: white space around it is dropped, a
    sign may lead, and single underscores may sit between digits; anything
    else raises [ValueError].  Decimal digits of other scripts, which
    Python reads too, are not covered. *)
Definition digit_of_char (c : char) : option (uint -> uint) :=
  if char_eqb c (ch "0") then Some D0
  else if char_eqb c (ch "1") then Some D1
  else if char_eqb c (ch "2") then Some D2
  else if char_eqb c (ch "3") then Some D3
  else if char_eqb c (ch "4") then Some D4
  else if char_eqb c (ch "5") then Some D5
  else if char_eqb c (ch "6") then Some D6
  else if char_eqb c (ch "7") then Some D7
  else if char_eqb c (ch "8") then Some D8
  else if char_eqb c (ch "9") then Some D9
  else None.

Fixpoint uint_of_chars (after_digit : bool) (s : str) : option uint :=
  match s with
  | [] => if after_digit then Some Nil else None
  | c :: s' =>
      if char_eqb c (ch "_")
      then if after_digit then uint_of_chars false s' else None
      else match digit_of_char c with
           | Some d => option_map d (uint_of_chars true s')
           | None => None
           end
  end.

Definition int_of_str (s : str) : result Z :=
  match strip s with
  | [] => Raise ValueError
  | c :: s' =>
      if char_eqb c (ch "-") then
        match uint_of_chars false s' with
        | Some u => Ok (Z.of_int (Neg u))
        | None => Raise ValueError
        end
      else if char_eqb c (ch "+") then
        match uint_of_chars false s' with
        | Some u => Ok (Z.of_int (Pos u))
        | None => Raise ValueError
        end
      else
        match uint_of_chars false (c :: s') with
        | Some u => Ok (Z.of_int (Pos u))
        | None => Raise ValueError
        end
  end.

(** A [dict] keyed by strings keeps its keys in insertion order;
    [d[k] = v] overwrites in place or appends, [d[k]] raises [KeyError]
    on a missing key. *)
Definition dict (V : Type) := list (str * V).

Fixpoint dict_set {V : Type} (d : dict V) (k : str) (v : V) : dict V :=
  match d with
  | [] => [(k, v)]
  | (k', v') :: d' =>
      if str_eqb k k' then (k', v) :: d' else (k', v') :: dict_set d' k v
  end.

Fixpoint dict_get {V : Type} (d : dict V) (k : str) : result V :=
  match d with
  | [] => Raise KeyError
  | (k', v') :: d' => if str_eqb k k' then Ok v' else dict_get d' k
  end.

Definition keys {V : Type} (d : dict V) : list str := map fst d.
Definition values {V : Type} (d : dict V) : list V := map snd d.

(** Sequencing of computations that may raise. *)
Definition bind {A B : Type} (r : result A) (k : A -> result B) : result B :=
  match r with
  | Ok a => k a
  | Raise e => Raise e
  end.

(** A [for] loop whose body may raise: the loop stops at the first
    exception. *)
Fixpoint for_each {A S : Type} (xs : list A) (body : S -> A -> result S) (s : S)
  : result S :=
  match xs with
  | [] => Ok s
  | x :: xs' => bind (body s x) (for_each xs' body)
  end.

End Py.

Import Py.

(** ** helpers.py: the Text Cleaner *)

Module Cleaner.

Definition dquote : char := 34%N.
Definition lbracket : char := ch "[".
Definition rbracket : char := ch "]".

(** The list [filter_out]: full stop, comma, colon, exclamation mark,
    question mark, semicolon, double quote, hyphen and the two round
    brackets, in the order of the source. *)
Definition filter_out : list char :=
  [ch "."; ch ","; ch ":"; ch "!"; ch "?"; ch ";"; dquote; ch "-"; ch "("; ch ")"].

(** [word[i]]; every use is guarded by [i < len(word)]. *)
Definition at_index (word : str) (i : nat) : char := nth i word 0%N.

(** The inner loop
    [while i + 1 < len(word) and word[i + 1] != "]": i += 1],
    returning the final [i]. *)
Fixpoint skip_citation (fuel : nat) (word : str) (i : nat) : nat :=
  match fuel with
  | O => i
  | S fuel' =>
      if (i + 1 <? length word) && negb (char_eqb (at_index word (i + 1)) rbracket)
      then skip_citation fuel' word (i + 1)
      else i
  end.

(** The loop [while i < len(word)] over one word; the state is the
    index [i], the flag [skip_next] and [cleaned_characters]. *)
Fixpoint scan_word (fuel : nat) (word : str) (i : nat) (skip_next : bool)
         (cleaned_characters : list char) : list char :=
  match fuel with
  | O => cleaned_characters
  | S fuel' =>
      if i <? length word then
        let character := at_index word i in
        if skip_next then
          scan_word fuel' word (i + 1) false cleaned_characters
        else if char_in character filter_out then
          scan_word fuel' word (i + 1) skip_next cleaned_characters
        else if char_eqb character lbracket then
          let i' := skip_citation (length word) word i in
          scan_word fuel' word (i' + 1) true cleaned_characters
        else
          scan_word fuel' word (i + 1) skip_next (cleaned_characters ++ [character])
      else cleaned_characters
  end.

(** The body of [for word in words_list] up to
    [cleaned_word = "".join(cleaned_characters)]: every iteration of the
    [while] advances [i], so [len(word)] iterations are enough
    (see [scan_word_fuel]). *)
Definition clean_word (word : str) : str :=
  scan_word (length word) word 0 false [].

Definition truthy (s : str) : bool :=
  match s with [] => false | _ => true end.

Definition clean_words_list (words_list : list str) : list str :=
  fold_left
    (fun cleaned_words_list word =>
       let cleaned_word := clean_word word in
       if truthy cleaned_word
       then cleaned_words_list ++ [cleaned_word]
       else cleaned_words_list)
    words_list [].

(** The scan as a two-state machine over the remaining characters:
    [in_cite] holds between a ['['] and the [']'] that closes it. *)
Fixpoint scan_spec (in_cite : bool) (w : str) : str :=
  match w with
  | [] => []
  | c :: w' =>
      if in_cite then
        if char_eqb c rbracket then scan_spec false w' else scan_spec true w'
      else if char_in c filter_out then scan_spec false w'
      else if char_eqb c lbracket then scan_spec true w'
      else c :: scan_spec false w'
  end.

(** A character that cleaning lets through. *)
Definition plain (c : char) : bool :=
  negb (char_in c filter_out) && negb (char_eqb c lbracket).

(** [w] holds a bracketed span [[...]]. *)
Definition has_citation_span (w : str) : Prop :=
  exists a b c, w = a ++ lbracket :: b ++ rbracket :: c.

(** What [clean_words_list] returns: words, none empty, all of plain
    characters. *)
Definition cleaned (word : str) : Prop :=
  truthy word = true /\ Forall (fun c => plain c = true) word.

End Cleaner.

Import Cleaner.


(** ** helpers.py: fetching, extraction, matching and traversal *)

Module Helpers.

(** What [requests.get(url, timeout=60)] does: a response with its status
    code and body, a timeout, or another transport fault. *)
Inductive response (Content : Type) :=
| Responded (status_code : Z) (content : Content)
| TimedOut
| TransportFault (error : str).

Arguments Responded {Content} status_code content.
Arguments TimedOut {Content}.
Arguments TransportFault {Content} error.

(** The three messages [scrape_page] prints. *)
Inductive printed :=
| FailedToRetrieve (status_code : Z)
| TimeoutError
| AnErrorOccurred (error : str).

(** The collaborators of the module: the network, the HTML parser and
    its tags, [str.lower] and the imported keyword list.  The network
    answers a URL knowing the requests made before it, so the same page
    may answer differently when fetched twice. *)
Class External := {
  Content : Type;
  Soup : Type;
  Tag : Type;
  requests_get : list str -> str -> response Content;
  BeautifulSoup : Content -> Soup;
  find_all : Soup -> str -> list Tag;
  tag_find_all : Tag -> str -> list Tag;
  get_text : Tag -> str;
  find_previous_sibling : Tag -> str -> option Tag;
  find_next_sibling : Tag -> str -> option Tag;
  tag_get : Tag -> str -> option str;
  lower : str -> str;
  military_terminology : list str
}.

(** The state the module acts on: the URLs requested so far and the
    lines printed so far. *)
Record world := { requests : list str; stdout : list printed }.

Definition M (A : Type) : Type := world -> result A * world.

Definition ret {A : Type} (a : A) : M A := fun w => (Ok a, w).

Definition bindM {A B : Type} (m : M A) (k : A -> M B) : M B :=
  fun w =>
    match m w with
    | (Ok a, w') => k a w'
    | (Raise e, w') => (Raise e, w')
    end.

Definition lift {A : Type} (r : result A) : M A := fun w => (r, w).

Declare Scope helpers_scope.
Delimit Scope helpers_scope with helpers.
Notation "x <- m ;; k" := (bindM m (fun x => k))
  (at level 61, m at next level, right associativity) : helpers_scope.
Notation "' pat <- m ;; k" := (bindM m (fun x => match x with pat => k end))
  (at level 61, pat pattern, m at next level, right associativity) : helpers_scope.
Local Open Scope helpers_scope.

(** The four result fields of a page or of a topic, in the order the
    functions return them. *)
Definition fields : Type := list str * Z * list str * Z.

Definition invariant (r : fields) : Prop :=
  let '(matched_words, match_count, words, word_count) := r in
  match_count = len matched_words /\ word_count = len words.

(** [a += b] on each of the four fields.  The two lists a caller passes
    to [search_subpages] are those [find_all_matches] has just built, two
    distinct fresh lists, so extending them in place is the same as
    returning the longer lists. *)
Definition add_fields (acc page : fields) : fields :=
  let '(initial_matched_words, initial_match_count, initial_words, initial_word_count) := acc in
  let '(matched_words, match_count, words, word_count) := page in
  (initial_matched_words ++ matched_words,
   (initial_match_count + match_count)%Z,
   initial_words ++ words,
   (initial_word_count + word_count)%Z).

Definition wiki_prefix : str := py "/wiki/".
Definition second_round_filter : list str := [py "/wiki/Main_page"; py ":"].

(** The inner [for filter_item in second_round_filter] with its [break]:
    the value of [should_keep] after the loop. *)
Fixpoint should_keep (item : str) (filters : list str) : bool :=
  match filters with
  | [] => true
  | filter_item :: filters' =>
      if contains item filter_item then false else should_keep item filters'
  end.

Definition filter_links (list_links : list str) : list str :=
  let list_links_filtered :=
    fold_left
      (fun acc item => if startswith item wiki_prefix then acc ++ [item] else acc)
      list_links [] in
  fold_left
    (fun filtered_list_links item =>
       if should_keep item second_round_filter
       then filtered_list_links ++ [item]
       else filtered_list_links)
    list_links_filtered [].

(** The Link Filter as the specification words it: the prefix, then
    inequality with the home-page link and absence of a colon. *)
Definition filter_links_as_specified (list_links : list str) : list str :=
  filter
    (fun item =>
       startswith item wiki_prefix
       && negb (str_eqb item (py "/wiki/Main_page"))
       && negb (contains item (py ":")))
    list_links.

(** The test the two loops of [filter_links] apply to one link. *)
Definition kept (item : str) : bool :=
  startswith item wiki_prefix
  && (negb (contains item (py "/wiki/Main_page")) && negb (contains item (py ":"))).

Section Program.

Context {ext : External}.

Definition url_of (title : str) : str := py "https://en.wikipedia.org/wiki/" ++ title.

Definition print (line : printed) : M unit :=
  fun w => (Ok tt, {| requests := requests w; stdout := stdout w ++ [line] |}).

(** [requests.get]: the request is recorded and the network answers. *)
Definition get (url : str) : M (response Content) :=
  fun w =>
    (Ok (requests_get (requests w) url),
     {| requests := requests w ++ [url]; stdout := stdout w |}).

(** [page.raise_for_status()] raises on the status codes 400 to 599. *)
Definition is_error_status (status_code : Z) : bool :=
  ((400 <=? status_code) && (status_code <? 600))%Z.

(** [scrape_page]: every [except] branch prints and returns [None]. *)
Definition scrape_page (title : str) : M (option Soup) :=
  page <- get (url_of title) ;;
  match page with
  | Responded status_code content =>
      if is_error_status status_code
      then _ <- print (FailedToRetrieve status_code) ;; ret None
      else ret (Some (BeautifulSoup content))
  | TimedOut => _ <- print TimeoutError ;; ret None
  | TransportFault error => _ <- print (AnErrorOccurred error) ;; ret None
  end.

(** [soup.find_all(name)] where [soup] may be [None]: [None] has no
    attribute [find_all]. *)
Definition soup_find_all (soup : option Soup) (name : str) : result (list Tag) :=
  match soup with
  | Some s => Ok (find_all s name)
  | None => Raise AttributeError
  end.

Definition get_words_from_paragraphs (soup : option Soup) : result (list str) :=
  bind (soup_find_all soup (py "p")) (fun paragraphs =>
  Ok (fold_left
        (fun words_list paragraph => words_list ++ split_ws (get_text paragraph))
        paragraphs [])).

(** The non-breaking space followed by an en dash. *)
Definition nbsp_en_dash : str := [160%N; 8211%N].

Definition is_some {A : Type} (o : option A) : bool :=
  match o with Some _ => true | None => false end.

Definition find_bullet_words (soup : option Soup) : result (list str) :=
  bind (soup_find_all soup (py "ul")) (fun bullet_lists =>
  Ok (fold_left
        (fun bullet_lists_organized bullet =>
           if is_some (find_previous_sibling bullet (py "p"))
              && is_some (find_next_sibling bullet (py "p"))
           then
             fold_left
               (fun organized item =>
                  let cleaned_item := replace (get_text item) nbsp_en_dash [] in
                  organized ++ [cleaned_item])
               (tag_find_all bullet (py "li")) bullet_lists_organized
           else bullet_lists_organized)
        bullet_lists [])).

Definition clean_bullet_list (bullet_lists_organized : list str) : list str :=
  let individual_bullet_words :=
    fold_left (fun acc bullet => acc ++ split_ws bullet) bullet_lists_organized [] in
  clean_words_list individual_bullet_words.

Definition find_keyword_matches (words_list keyword_list : list str) : Z * list str :=
  fold_left
    (fun '(match_count, matched_words) word =>
       let lowercase_word := lower word in
       if str_in_list lowercase_word keyword_list
       then ((match_count + 1)%Z, matched_words ++ [lowercase_word])
       else (match_count, matched_words))
    words_list (0%Z, []).

(** [if href:] holds for a string that is present and not empty. *)
Definition find_links (soup : option Soup) : result (list str) :=
  bind (soup_find_all soup (py "a")) (fun links =>
  Ok (fold_left
        (fun list_links link =>
           match tag_get link (py "href") with
           | Some href => if truthy href then list_links ++ [href] else list_links
           | None => list_links
           end)
        links [])).

Definition find_all_matches (title : str) : M fields :=
  let all_matched_words : list str := [] in
  let total_match_count := 0%Z in
  let total_words : list str := [] in
  soup <- scrape_page title ;;
  words_list <- lift (get_words_from_paragraphs soup) ;;
  let cleaned_words_list := clean_words_list words_list in
  let total_words := total_words ++ cleaned_words_list in
  bullet_lists <- lift (find_bullet_words soup) ;;
  let cleaned_bullet_lists := clean_bullet_list bullet_lists in
  let total_words := total_words ++ cleaned_bullet_lists in
  let '(match_count_1, matched_words_1) :=
    find_keyword_matches cleaned_words_list military_terminology in
  let all_matched_words := all_matched_words ++ matched_words_1 in
  let total_match_count := (total_match_count + match_count_1)%Z in
  let '(match_count_2, matched_words_2) :=
    find_keyword_matches cleaned_bullet_lists military_terminology in
  let all_matched_words := all_matched_words ++ matched_words_2 in
  let total_match_count := (total_match_count + match_count_2)%Z in
  let total_word_count := len total_words in
  ret (all_matched_words, total_match_count, total_words, total_word_count).

(** The loop [for link in filtered_links] of [search_subpages]. *)
Fixpoint visit_links (filtered_links : list str) (acc : fields) : M fields :=
  match filtered_links with
  | [] => ret acc
  | link :: rest =>
      page <- find_all_matches (slice_from link 6) ;;
      visit_links rest (add_fields acc page)
  end.

Definition search_subpages (title : str)
           (initial_matched_words : list str) (initial_match_count : Z)
           (initial_words : list str) (initial_word_count : Z) : M fields :=
  soup <- scrape_page title ;;
  links <- lift (find_links soup) ;;
  let filtered_links := filter_links links in
  visit_links filtered_links
    (initial_matched_words, initial_match_count, initial_words, initial_word_count).

(** The fetches after which [scrape_page] returns [None]. *)
Definition fetch_fails (page : response Content) : bool :=
  match page with
  | Responded status_code _ => is_error_status status_code
  | TimedOut => true
  | TransportFault _ => true
  end.

(** [visited links w pages w']: from the world [w], running
    [find_all_matches] on the title of each link in turn returns
    [pages] and leaves the world [w']. *)
Inductive visited : list str -> world -> list fields -> world -> Prop :=
| visited_nil (w : world) : visited [] w [] w
| visited_cons (link : str) (rest : list str) (w w1 w2 : world)
               (page : fields) (pages : list fields) :
    find_all_matches (slice_from link 6) w = (Ok page, w1) ->
    visited rest w1 pages w2 ->
    visited (link :: rest) w (page :: pages) w2.

End Program.

End Helpers.

Import Helpers.

(** ** results.py: the aggregate map, its four files and the percentages *)

Module Results.

Local Open Scope helpers_scope.

(** The value stored for one discipline. *)
Record results := {
  final_matched_words : list str;
  final_match_count : Z;
  total_words : list str;
  total_word_count : Z
}.


Section Process.

Context {ext : External}.

(** The loop [for discipline in engineering_disciplines]. *)
Fixpoint process_each (disciplines : list str) (discipline_matches : dict results)
  : M (dict results) :=
  match disciplines with
  | [] => ret discipline_matches
  | discipline :: rest =>
      let title := discipline in
      '(initial_matched_words, initial_match_count,
        initial_words, initial_word_count) <- find_all_matches title ;;
      '(final_matched_words, final_match_count,
        total_words, total_word_count) <-
        search_subpages title initial_matched_words initial_match_count
          initial_words initial_word_count ;;
      process_each rest
        (dict_set discipline_matches discipline
           {| final_matched_words := final_matched_words;
              final_match_count := final_match_count;
              total_words := total_words;
              total_word_count := total_word_count |})
  end.

Definition process_disciplines (engineering_disciplines : list str)
  : M (dict results) :=
  process_each engineering_disciplines [].

End Process.

(** Text files by path.  A file opened for writing holds what was written
    to it; line ends are written as they are (the POSIX behaviour), and
    the directory [data] is taken to exist. *)
Definition filesystem := str -> option str.

Definition write_file (fs : filesystem) (path content : str) : filesystem :=
  fun p => if str_eqb p path then Some content else fs p.

Definition read_file (fs : filesystem) (path : str) : result str :=
  match fs path with
  | Some content => Ok content
  | None => Raise FileNotFoundError
  end.

Definition newline : char := 10%N.
Definition carriage_return : char := 13%N.

(** [for line in file] on a file opened in text mode: a line ends at a
    line feed, at a carriage return, or at the pair of them, and each
    ending reads as one line feed, kept at the end of the line. *)
Fixpoint readlines_aux (cur s : str) : list str :=
  match s with
  | [] => match cur with [] => [] | _ => [cur] end
  | c :: s' =>
      if char_eqb c newline then (cur ++ [newline]) :: readlines_aux [] s'
      else if char_eqb c carriage_return then
        match s' with
        | c' :: _ =>
            if char_eqb c' newline
            then readlines_aux cur s'
            else (cur ++ [newline]) :: readlines_aux [] s'
        | [] => [cur ++ [newline]]
        end
      else readlines_aux (cur ++ [c]) s'
  end.

Definition readlines (content : str) : list str := readlines_aux [] content.

Definition final_matched_words_path : str := py "data/final_matched_words.txt".
Definition total_words_path : str := py "data/total_words.txt".
Definition final_match_counts_path : str := py "data/final_match_counts.txt".
Definition total_word_counts_path : str := py "data/total_word_counts.txt".

(** One [with open(path, "w")] block: a line per item of the map. *)
Definition write_lines (fs : filesystem) (path : str)
           (discipline_matches : dict results) (payload : results -> str)
  : filesystem :=
  write_file fs path
    (fold_left
       (fun written '(discipline, results) =>
          written ++ (discipline ++ py ": " ++ payload results ++ [newline]))
       discipline_matches []).

Definition write_to_files (discipline_matches : dict results) (fs : filesystem)
  : filesystem :=
  let fs := write_lines fs final_matched_words_path discipline_matches
              (fun results => join (py " ") (final_matched_words results)) in
  let fs := write_lines fs total_words_path discipline_matches
              (fun results => join (py " ") (total_words results)) in
  let fs := write_lines fs final_match_counts_path discipline_matches
              (fun results => str_of_int (final_match_count results)) in
  write_lines fs total_word_counts_path discipline_matches
    (fun results => str_of_int (total_word_count results)).

(** One [with open(path, "r")] block: [discipline, field = line.split(": ")]
    raises [ValueError] unless the line splits in two. *)
Definition read_dict {V : Type} (fs : filesystem) (path : str)
           (parse : str -> result V) : result (dict V) :=
  bind (read_file fs path) (fun content =>
  for_each (readlines content)
    (fun d line =>
       match split_sep line (py ": ") with
       | [discipline; field] =>
           bind (parse field) (fun v => Ok (dict_set d discipline v))
       | _ => Raise ValueError
       end)
    []).

Definition create_discipline_matches
           (final_matched_words_file total_words_file
            final_match_counts_file total_word_counts_file : str)
           (fs : filesystem) : result (dict results) :=
  bind (read_dict fs final_matched_words_file
          (fun words => Ok (split_ws (strip words))))
    (fun final_matched_words =>
  bind (read_dict fs total_words_file
          (fun words => Ok (split_ws (strip words))))
    (fun total_words =>
  bind (read_dict fs final_match_counts_file
          (fun count => int_of_str (strip count)))
    (fun final_match_counts =>
  bind (read_dict fs total_word_counts_file
          (fun count => int_of_str (strip count)))
    (fun total_word_counts =>
  for_each final_matched_words
    (fun discipline_matches '(discipline, final_matched) =>
       bind (dict_get final_match_counts discipline) (fun match_count =>
       bind (dict_get total_words discipline) (fun words =>
       bind (dict_get total_word_counts discipline) (fun word_count =>
       Ok (dict_set discipline_matches discipline
             {| final_matched_words := final_matched;
                final_match_count := match_count;
                total_words := words;
                total_word_count := word_count |})))))
    [])))).


Definition word_ok (word : str) : bool :=
  truthy word
  && forallb (fun c => negb (isspace c) && negb (char_eqb c (ch ":"))) word.



Definition spaceless (s : str) : Prop := Forall (fun c => isspace c = false) s.


(** The text [write_to_files] leaves in one file. *)
Definition written (discipline_matches : dict results) (payload : results -> str) : str :=
  List.concat
    (map (fun entry => (fst entry ++ py ": " ++ payload (snd entry)) ++ [newline])
         discipline_matches).

(** A dictionary holds each key once. *)
Definition well_formed {V : Type} (d : dict V) : Prop := NoDup (keys d).



Definition no_files : filesystem := fun _ => None.


Section Plot.

(** Python floats and the two operations the percentage uses: [a / b]
    for a divisor that is not zero, and the product with an [int]. *)
Variable float : Type.
Variable int_truediv : Z -> Z -> float.
Variable float_mul : float -> Z -> float.

Definition truediv (a b : Z) : result float :=
  if (b =? 0)%Z then Raise ZeroDivisionError else Ok (int_truediv a b).

(** What [plot_stacked_bar_graph] hands to the plotting calls. *)
Record chart := {
  discipline_names : list str;
  percentages : list float;
  total_word_counts : list Z;
  match_counts : list Z
}.

Definition plot_stacked_bar_graph (discipline_matches : dict results)
  : result chart :=
  let discipline_names := keys discipline_matches in
  bind (for_each (values discipline_matches)
          (fun '(percentages, total_word_counts, match_counts) counts =>
             let total_word_count := total_word_count counts in
             let final_match_count := final_match_count counts in
             bind (truediv final_match_count total_word_count) (fun quotient =>
             let percentage := float_mul quotient 100 in
             Ok (percentages ++ [percentage],
                 total_word_counts ++ [total_word_count],
                 match_counts ++ [final_match_count])))
          ([], [], []))
    (fun '(percentages, total_word_counts, match_counts) =>
       Ok {| discipline_names := discipline_names;
             percentages := percentages;
             total_word_counts := total_word_counts;
             match_counts := match_counts |}).

End Plot.

End Results.

Import Results.

(** ** A small concrete site, to run the program on *)

Module Toy.

(** A tag with its name, its text, its [href], whether a paragraph
    sibling stands before and after it, and the texts of the list items
    inside it. *)
Inductive tag :=
| MkTag (name text : str) (href : option str) (prev_p next_p : bool) (inside : list str).

Definition name_of (t : tag) : str := let '(MkTag n _ _ _ _ _) := t in n.
Definition text_of (t : tag) : str := let '(MkTag _ x _ _ _ _) := t in x.
Definition href_of (t : tag) : option str := let '(MkTag _ _ h _ _ _) := t in h.
Definition prev_of (t : tag) : bool := let '(MkTag _ _ _ p _ _) := t in p.
Definition next_of (t : tag) : bool := let '(MkTag _ _ _ _ n _) := t in n.
Definition inside_of (t : tag) : list str := let '(MkTag _ _ _ _ _ i) := t in i.

Definition named (name : str) (ts : list tag) : list tag :=
  filter (fun t => str_eqb (name_of t) name) ts.

Definition p (text : string) : tag := MkTag (py "p") (py text) None false false [].
Definition a (href : string) : tag := MkTag (py "a") [] (Some (py href)) false false [].
Definition li (text : str) : tag := MkTag (py "li") text None false false [].
Definition ul (between_paragraphs : bool) (inside : list string) : tag :=
  MkTag (py "ul") [] None between_paragraphs between_paragraphs (map py inside).

Definition seed_page : list tag :=
  [p "The Army built it.[1]"; ul true ["navy ships"%string]; p "War (1914)";
   a "/wiki/Sub"; a "/wiki/Main_page"; a "/wiki/Help:Contents";
   a "https://example.org/"; a "/wiki/Leaf"].

Definition broken_page : list tag :=
  [p "Links to a page that is gone"; a "/wiki/Sub"; a "/wiki/Gone"; a "/wiki/Leaf"].

Definition sub_page : list tag :=
  [p "A war aircraft."; a "/wiki/Deeper"].

Definition only_text_page : list tag := [p "An army of words"].

Definition site (url : str) : response (list tag) :=
  if str_eqb url (py "https://en.wikipedia.org/wiki/Seed") then Responded 200 seed_page
  else if str_eqb url (py "https://en.wikipedia.org/wiki/Sub") then Responded 200 sub_page
  else if str_eqb url (py "https://en.wikipedia.org/wiki/Leaf") then Responded 200 only_text_page
  else if str_eqb url (py "https://en.wikipedia.org/wiki/Broken") then Responded 200 broken_page
  else if str_eqb url (py "https://en.wikipedia.org/wiki/Slow") then TimedOut
  else if str_eqb url (py "https://en.wikipedia.org/wiki/Down")
       then TransportFault (py "connection refused")
  else Responded 404 [].

(** [str.lower] on the letters A to Z. *)
Definition ascii_lower (s : str) : str :=
  map (fun c => if ((65 <=? c) && (c <=? 90))%N then (c + 32)%N else c) s.

#[export] Instance external : External := {|
  Content := list tag;
  Soup := list tag;
  Tag := tag;
  requests_get := fun _ url => site url;
  BeautifulSoup := fun content => content;
  find_all := fun soup name => named name soup;
  tag_find_all := fun t name => named name (map li (inside_of t));
  get_text := text_of;
  find_previous_sibling := fun t _ => if prev_of t then Some t else None;
  find_next_sibling := fun t _ => if next_of t then Some t else None;
  tag_get := fun t _ => href_of t;
  lower := ascii_lower;
  military_terminology := [py "aircraft"; py "army"; py "navy"; py "war"]
|}.

Definition start : world := {| requests := []; stdout := [] |}.

(** The run of [search_subpages] on the seed page from [start]. *)
Definition seed_run : result fields * world :=
  Eval vm_compute in search_subpages (py "Seed") [] 0 [] 0 start.


Definition seed_world : world := Eval vm_compute in snd seed_run.

(** The run of [find_all_matches] on a page that is gone. *)
Definition gone_world : world :=
  Eval vm_compute in snd (find_all_matches (py "Gone") start).

(** The aggregate map of two topics. *)
Definition two_topics : dict results :=
  Eval vm_compute in
    match fst (process_disciplines [py "Seed"; py "Leaf"] start) with
    | Ok d => d
    | Raise _ => []
    end.

Definition two_topics_world : world :=
  Eval vm_compute in snd (process_disciplines [py "Seed"; py "Leaf"] start).


(** Seven topics with one word each. *)
Definition seven_topics : dict results :=
  map (fun name =>
         (py name,
          {| final_matched_words := [py "war"]; final_match_count := 1;
             total_words := [py "war"]; total_word_count := 1 |}))
      ["Aerospace"; "Biomedical"; "Chemical"; "Civil"; "Electrical"; "Mechanical";
       "Nuclear"]%string.

(** A page whose only list is a navigation list, with no paragraph
    before it. *)
Definition nav_page : list tag :=
  [MkTag (py "ul") [] None false true [py "Home"; py "About"]; p "Some text"].

End Toy.

(** ** Order-preserving deletion *)

(** [subsequence s l]: [s] is [l] with some elements left out. *)
Inductive subsequence {A : Type} : list A -> list A -> Prop :=
| subsequence_nil : subsequence [] []
| subsequence_keep (x : A) (s l : list A) :
    subsequence s l -> subsequence (x :: s) (x :: l)
| subsequence_drop (x : A) (s l : list A) :
    subsequence s l -> subsequence s (x :: l).

(** ** results.py: the text summary and the grid of word clouds *)

Module Reports.



Section Wordcloud.

(** [WordCloud(...).generate(text)] is the word-cloud library's: it
    returns an image or raises. *)
Variable Image : Type.
Variable generate : str -> result Image.

(** [axes] is the 2 by 3 array of [plt.subplots(2, 3)]: [axes[row, col]]
    raises [IndexError] outside it, and an index below zero counts from the
    end. *)
Definition axis_index (n size : Z) : option Z :=
  if ((0 <=? n) && (n <? size))%Z then Some n
  else if ((- size <=? n) && (n <? 0))%Z then Some (n + size)%Z
  else None.

Definition axes_at (row col : Z) : option (Z * Z) :=
  match axis_index row 2, axis_index col 3 with
  | Some r, Some c => Some (r, c)
  | _, _ => None
  end.

(** What is done to the figure. *)
Inductive drawing :=
| Imshow (cell : Z * Z) (wordcloud : Image)
| SetTitle (cell : Z * Z) (title : str)
| AxisOff (cell : Z * Z)
| TightLayout
| Show.

(** How the function ends: it returns, [generate] raises, or an index
    falls outside [axes]. *)
Inductive outcome :=
| Returns
| GenerateRaises (e : exn)
| IndexError.

(** The loop [for i, (discipline, results) in enumerate(...)]; the state
    is what has been drawn so far. *)
Fixpoint draw_clouds (i : Z) (items : dict results) (drawn : list drawing)
  : outcome * list drawing :=
  match items with
  | [] => (Returns, drawn)
  | (discipline, results) :: rest =>
      let matched_words := final_matched_words results in
      let string_convert := join (py " ") matched_words in
      match generate string_convert with
      | Raise e => (GenerateRaises e, drawn)
      | Ok wordcloud =>
          let row := (i / 3)%Z in
          let col := (i mod 3)%Z in
          match axes_at row col with
          | None => (IndexError, drawn)
          | Some cell =>
              draw_clouds (i + 1) rest
                (drawn ++ [Imshow cell wordcloud; SetTitle cell discipline; AxisOff cell])
          end
      end
  end.

(** The drawings of the topics from index [i] on when every word cloud
    is generated: three per topic, in the cell of its index. *)
Fixpoint placed (render : results -> Image) (i : Z) (items : dict results)
  : list drawing :=
  match items with
  | [] => []
  | (discipline, results) :: rest =>
      [Imshow ((i / 3)%Z, (i mod 3)%Z) (render results);
       SetTitle ((i / 3)%Z, (i mod 3)%Z) discipline;
       AxisOff ((i / 3)%Z, (i mod 3)%Z)]
      ++ placed render (i + 1) rest
  end.

Definition gen_wordcloud (discipline_matches : dict results)
  : outcome * list drawing :=
  match draw_clouds 0 discipline_matches [] with
  | (Returns, drawn) => (Returns, drawn ++ [TightLayout; Show])
  | stopped => stopped
  end.

End Wordcloud.

End Reports.

Import Reports.
Example clean_words_list_test1 :
  clean_words_list [py "Some"; py "example"; py "text"; py "has"; py "citations.[3]"]
  = [py "Some"; py "example"; py "text"; py "has"; py "citations"].
Proof. reflexivity. Qed.

Example clean_words_list_test2 :
  clean_words_list [py ".,:!?;" ++ [dquote] ++ py "-()"] = [].
Proof. reflexivity. Qed.

Example clean_words_list_test3 : clean_words_list [py "[1][2][3][4][5]"] = [].
Proof. reflexivity. Qed.

Example clean_words_list_test4 :
  clean_words_list [py "[1]"; py "!"; py "[3]"; py "..."] = [].
Proof. reflexivity. Qed.

Example clean_words_list_test5 : clean_words_list [py "Hello"; py "---"] = [py "Hello"].
Proof. reflexivity. Qed.

Example clean_words_list_test6 :
  clean_words_list [py "Citation[3]"; py "here"; py "and"; py "punctuation"; py "here."]
  = [py "Citation"; py "here"; py "and"; py "punctuation"; py "here"].
Proof. reflexivity. Qed.


Example filter_links_test3 :
  filter_links [py "/wiki/test1"; py "/wiki/test2:"; py "/wiki/Main_page"; py "/wiki/test4"]
  = [py "/wiki/test1"; py "/wiki/test4"].
Proof. reflexivity. Qed.

Example filter_links_test2 :
  filter_links [py "invalid1"; py "invalid2"; py "/wiki/Main_page"; py "/wiki/invalid:"] = [].
Proof. reflexivity. Qed.

Example find_keyword_matches_test2 :
  find_keyword_matches (ext := Toy.external)
    [py "aircraft"; py "army"; py "navy"; py "war"]
    (@military_terminology Toy.external)
  = (4%Z, [py "aircraft"; py "army"; py "navy"; py "war"]).
Proof. reflexivity. Qed.

Example find_keyword_matches_test4 :
  find_keyword_matches (ext := Toy.external)
    [py "Hello"; py "world"; py "I"; py "love"; py "you"]
    (@military_terminology Toy.external)
  = (0%Z, []).
Proof. reflexivity. Qed.

Example clean_bullet_list_test5 :
  clean_bullet_list [py "Hello World"; py "---"; py "..."; py "()()()"]
  = [py "Hello"; py "World"].
Proof. reflexivity. Qed.

Example find_all_matches_seed :
  fst (find_all_matches (ext := Toy.external) (py "Seed") Toy.start)
  = Ok ([py "army"; py "war"; py "navy"], 3%Z,
        [py "The"; py "Army"; py "built"; py "it"; py "War"; py "1914"; py "navy"; py "ships"],
        8%Z).
Proof. vm_compute. reflexivity. Qed.

(** The seed page links to two articles; the link found on the first of
    them is not followed. *)
Example search_subpages_seed_requests :
  requests Toy.seed_world
  = [py "https://en.wikipedia.org/wiki/Seed";
     py "https://en.wikipedia.org/wiki/Sub";
     py "https://en.wikipedia.org/wiki/Leaf"].
Proof. reflexivity. Qed.

Example search_subpages_seed_fields :
  fst Toy.seed_run
  = Ok ([py "war"; py "aircraft"; py "army"], 3%Z,
        [py "A"; py "war"; py "aircraft"; py "An"; py "army"; py "of"; py "words"], 7%Z).
Proof. reflexivity. Qed.

(** A link to a page that answers 404 stops the traversal: the link after
    it is never requested. *)
Example search_subpages_broken :
  search_subpages (ext := Toy.external) (py "Broken") [] 0 [] 0 Toy.start
  = (Raise AttributeError,
     {| requests := [py "https://en.wikipedia.org/wiki/Broken";
                     py "https://en.wikipedia.org/wiki/Sub";
                     py "https://en.wikipedia.org/wiki/Gone"];
        stdout := [FailedToRetrieve 404] |}).
Proof. vm_compute. reflexivity. Qed.

Example str_of_int_examples :
  str_of_int 0 = py "0" /\ str_of_int 1203 = py "1203" /\ str_of_int (-45) = py "-45".
Proof. repeat split. Qed.

Example int_of_str_examples :
  int_of_str (py " 1_203 ") = Ok 1203%Z /\
  int_of_str (py "-45") = Ok (-45)%Z /\
  int_of_str (py "+7") = Ok 7%Z /\
  int_of_str (py "") = Raise ValueError /\
  int_of_str (py "1__2") = Raise ValueError /\
  int_of_str (py "12a") = Raise ValueError.
Proof. repeat split. Qed.

Example split_examples :
  split_sep (py "a: b c") (py ": ") = [py "a"; py "b c"] /\
  split_sep (py "a: b: c") (py ": ") = [py "a"; py "b"; py "c"] /\
  split_sep (py "a:: ") (py ": ") = [py "a:"; []] /\
  split_sep (py "abc") (py ": ") = [py "abc"] /\
  split_ws (py "  one two   three ") = [py "one"; py "two"; py "three"] /\
  strip (py "  one two  ") = py "one two" /\
  replace [ch "a"; 160%N; 8211%N; ch "b"] [160%N; 8211%N] [] = py "ab".
Proof. repeat split. Qed.

Example readlines_examples :
  readlines (py "a: x" ++ [10%N] ++ py "b: y" ++ [13%N; 10%N] ++ py "c")
  = [py "a: x" ++ [10%N]; py "b: y" ++ [10%N]; py "c"].
Proof. reflexivity. Qed.

Example written_two_topics :
  write_to_files Toy.two_topics no_files final_match_counts_path
  = Some (py "Seed: 6" ++ [10%N] ++ py "Leaf: 1" ++ [10%N]).
Proof. reflexivity. Qed.


(** The seed page is asked for twice, then its two articles, then the
    second topic twice. *)
Example process_disciplines_two_topics_requests :
  requests Toy.two_topics_world
  = [py "https://en.wikipedia.org/wiki/Seed"; py "https://en.wikipedia.org/wiki/Seed";
     py "https://en.wikipedia.org/wiki/Sub"; py "https://en.wikipedia.org/wiki/Leaf";
     py "https://en.wikipedia.org/wiki/Leaf"; py "https://en.wikipedia.org/wiki/Leaf"].
Proof. reflexivity. Qed.
(** ** The Text Cleaner: the index loop against the two-state scan *)

Section CleanerFacts.

Lemma skipn_at_index (word : str) (i : nat) :
  i < length word -> skipn i word = at_index word i :: skipn (S i) word.
Proof.
  revert i; induction word as [|c word IH]; intros i Hi; simpl in Hi.
  - lia.
  - destruct i as [|i]; [reflexivity|].
    simpl. apply IH. lia.
Qed.

Lemma skipn_past (word : str) (i : nat) :
  length word <= i -> skipn i word = [].
Proof. apply skipn_all2. Qed.

(** The inner loop stops on the character before the closing bracket (or
    on the last character), having passed no closing bracket. *)
Lemma skip_citation_spec (fuel : nat) (word : str) (i : nat) :
  i < length word -> length word - i <= fuel ->
  let i' := skip_citation fuel word i in
  i <= i' < length word /\
  scan_spec true (skipn (S i) word) = scan_spec false (skipn (S (S i')) word).
Proof.
  revert i; induction fuel as [|fuel IH]; intros i Hi Hfuel; [lia|].
  cbn [skip_citation].
  destruct (i + 1 <? length word) eqn:Hlt; cbn [andb].
  - apply Nat.ltb_lt in Hlt.
    destruct (char_eqb (at_index word (i + 1)) rbracket) eqn:Hc; cbn [negb].
    + split; [lia|].
      rewrite (@skipn_at_index word (S i)) by lia.
      replace (i + 1) with (S i) in Hc by lia.
      cbn [scan_spec]. rewrite Hc. reflexivity.
    + destruct (IH (i + 1)) as [Hr Heq]; [lia|lia|].
      split; [lia|].
      rewrite (@skipn_at_index word (S i)) by lia.
      replace (S i) with (i + 1) by lia.
      cbn [scan_spec]. rewrite Hc.
      replace (S (i + 1)) with (S (i + 1)) in Heq by lia.
      exact Heq.
  - apply Nat.ltb_ge in Hlt.
    split; [lia|].
    rewrite !skipn_past by lia. reflexivity.
Qed.

(** Enough fuel: from index [i] the loop appends exactly what the
    two-state scan emits on the rest of the word, whatever the fuel left
    over. *)
Lemma scan_word_fuel (fuel : nat) (word : str) (i : nat) (skip_next : bool)
      (acc : list char) :
  length word - i <= fuel ->
  scan_word fuel word i skip_next acc
  = acc ++ scan_spec false (skipn (if skip_next then S i else i) word).
Proof.
  revert i skip_next acc; induction fuel as [|fuel IH]; intros i skip_next acc Hfuel.
  - cbn [scan_word]. rewrite skipn_past by (destruct skip_next; lia).
    cbn. now rewrite app_nil_r.
  - cbn [scan_word].
    destruct (i <? length word) eqn:Hlt.
    + apply Nat.ltb_lt in Hlt.
      destruct skip_next.
      * rewrite IH by lia. now replace (i + 1) with (S i) by lia.
      * rewrite (@skipn_at_index word i Hlt). cbn [scan_spec].
        destruct (char_in (at_index word i) filter_out).
        { rewrite IH by lia. now replace (i + 1) with (S i) by lia. }
        destruct (char_eqb (at_index word i) lbracket).
        { destruct (@skip_citation_spec (length word) word i Hlt) as [Hr Heq]; [lia|].
          rewrite IH by lia. rewrite Heq.
          now replace (skip_citation (length word) word i + 1)
            with (S (skip_citation (length word) word i)) by lia. }
        rewrite IH by lia. rewrite <- app_assoc.
        now replace (i + 1) with (S i) by lia.
    + apply Nat.ltb_ge in Hlt.
      rewrite skipn_past by (destruct skip_next; lia).
      cbn. now rewrite app_nil_r.
Qed.

Lemma clean_word_spec (word : str) : clean_word word = scan_spec false word.
Proof. unfold clean_word. now rewrite scan_word_fuel by lia. Qed.

Lemma clean_words_list_fold (words_list acc : list str) :
  fold_left
    (fun cleaned_words_list word =>
       let cleaned_word := clean_word word in
       if truthy cleaned_word
       then cleaned_words_list ++ [cleaned_word]
       else cleaned_words_list)
    words_list acc
  = acc ++ filter truthy (map clean_word words_list).
Proof.
  revert acc; induction words_list as [|w ws IH]; intros acc; cbn.
  - now rewrite app_nil_r.
  - rewrite IH. destruct (truthy (clean_word w)); [|reflexivity].
    now rewrite <- app_assoc.
Qed.

Lemma clean_words_list_map (words_list : list str) :
  clean_words_list words_list = filter truthy (map clean_word words_list).
Proof. unfold clean_words_list. now rewrite clean_words_list_fold. Qed.

Lemma clean_words_list_app (l1 l2 : list str) :
  clean_words_list (l1 ++ l2) = clean_words_list l1 ++ clean_words_list l2.
Proof. now rewrite !clean_words_list_map, map_app, filter_app. Qed.

Lemma scan_spec_plain (in_cite : bool) (w : str) :
  Forall (fun c => plain c = true) (scan_spec in_cite w).
Proof.
  revert in_cite; induction w as [|c w IH]; intros in_cite; cbn [scan_spec].
  - constructor.
  - destruct in_cite.
    + destruct (char_eqb c rbracket); apply IH.
    + destruct (char_in c filter_out) eqn:Hp; [apply IH|].
      destruct (char_eqb c lbracket) eqn:Hb; [apply IH|].
      constructor; [|apply IH].
      unfold plain. now rewrite Hp, Hb.
Qed.

Lemma scan_spec_id (w : str) :
  Forall (fun c => plain c = true) w -> scan_spec false w = w.
Proof.
  induction 1 as [|c w Hc _ IH]; cbn [scan_spec]; [reflexivity|].
  unfold plain in Hc. apply andb_true_iff in Hc as [Hp Hb].
  apply negb_true_iff in Hp, Hb. rewrite Hp, Hb. now rewrite IH.
Qed.

Lemma plain_no_span (w : str) :
  Forall (fun c => plain c = true) w -> ~ has_citation_span w.
Proof.
  intros Hall (a & b & c & ->).
  apply Forall_app in Hall as [_ Hall].
  inversion Hall as [|x l Hx _]; subst.
  discriminate Hx.
Qed.

End CleanerFacts.

Section CleanerClaims.

Lemma char_in_In (c : char) (xs : list char) : char_in c xs = true <-> In c xs.
Proof.
  unfold char_in. rewrite existsb_exists. split.
  - intros (x & Hx & Heq). apply N.eqb_eq in Heq. now subst.
  - intros Hin. exists c. split; [assumption|apply N.eqb_refl].
Qed.

Lemma plain_chars (c : char) :
  plain c = true <-> ~ In c filter_out /\ c <> lbracket.
Proof.
  unfold plain. rewrite andb_true_iff, !negb_true_iff.
  rewrite <- char_in_In, not_true_iff_false.
  unfold char_eqb. now rewrite N.eqb_neq.
Qed.

Lemma clean_words_list_cleaned (words_list : list str) :
  Forall cleaned (clean_words_list words_list).
Proof.
  rewrite clean_words_list_map. apply Forall_forall. intros w Hin.
  apply filter_In in Hin as [Hin Htruthy]. split; [assumption|].
  apply in_map_iff in Hin as (t & <- & _).
  rewrite clean_word_spec. apply scan_spec_plain.
Qed.

Lemma clean_words_list_fixed (words : list str) :
  Forall cleaned words -> clean_words_list words = words.
Proof.
  rewrite clean_words_list_map.
  induction 1 as [|w ws [Ht Hp] _ IH]; [reflexivity|].
  cbn [map filter]. rewrite clean_word_spec, (scan_spec_id Hp), Ht.
  now rewrite IH.
Qed.

(** C3.  Every word [clean_words_list] returns is free of the ten
    punctuation characters and of the opening bracket, hence of any
    bracketed span, and is not empty; the output is the sequence of the
    cleaned tokens in token order, the empty ones left out. *)
Theorem clean_words_list_output (words_list : list str) :
  clean_words_list words_list = filter truthy (map clean_word words_list) /\
  Forall
    (fun word =>
       word <> [] /\
       Forall (fun c => ~ In c filter_out /\ c <> lbracket) word /\
       ~ has_citation_span word)
    (clean_words_list words_list).
Proof.
  split; [apply clean_words_list_map|].
  eapply Forall_impl; [|apply clean_words_list_cleaned].
  intros w [Ht Hp]. repeat split.
  - intros ->. discriminate Ht.
  - eapply Forall_impl; [|exact Hp]. intros c Hc. now apply plain_chars.
  - now apply plain_no_span.
Qed.

(** C6.  Cleaning is idempotent: the cleaner returns its own output
    unchanged. *)
Theorem clean_words_list_idempotent (words_list : list str) :
  clean_words_list (clean_words_list words_list) = clean_words_list words_list.
Proof. apply clean_words_list_fixed, clean_words_list_cleaned. Qed.

(** C10.  A closing bracket with no opening bracket before it is not in
    the punctuation list, counts as a plain character and is emitted: the
    token a]b is returned as it is. *)
Theorem closing_bracket_survives :
  char_in rbracket filter_out = false /\
  plain rbracket = true /\
  clean_words_list [py "a]b"] = [py "a]b"].
Proof. repeat split. Qed.

End CleanerClaims.

(** ** The Link Filter and the Keyword Matcher *)

Section PureHelpers.

Lemma str_eqb_eq (a b : str) : str_eqb a b = true <-> a = b.
Proof.
  revert b; induction a as [|x a IH]; intros [|y b]; cbn; try easy.
  rewrite andb_true_iff, IH. unfold char_eqb. rewrite N.eqb_eq.
  split; [intros [-> ->]; reflexivity | intros [= -> ->]; auto].
Qed.

Lemma str_eqb_refl (a : str) : str_eqb a a = true.
Proof. now apply str_eqb_eq. Qed.


Lemma str_in_list_In (s : str) (xs : list str) : str_in_list s xs = true <-> In s xs.
Proof.
  unfold str_in_list. rewrite existsb_exists. split.
  - intros (x & Hx & Heq). apply str_eqb_eq in Heq. now subst.
  - intros Hin. exists s. auto using str_eqb_refl.
Qed.

Lemma startswith_prefix (s p : str) :
  startswith s p = true <-> exists t, s = p ++ t.
Proof.
  revert s; induction p as [|x p IH]; intros s; cbn.
  - split; [intros _; now exists s | reflexivity].
  - destruct s as [|y s].
    + split; [discriminate | intros (t & Ht); discriminate Ht].
    + rewrite andb_true_iff, IH. unfold char_eqb. rewrite N.eqb_eq. split.
      * intros [-> (t & ->)]. now exists t.
      * intros (t & [= -> ->]). split; [reflexivity | now exists t].
Qed.

Lemma contains_substring (s sub : str) :
  contains s sub = true <-> exists a b, s = a ++ sub ++ b.
Proof.
  induction s as [|c s IH].
  - cbn [contains]. rewrite orb_false_r, startswith_prefix. split.
    + intros (t & Ht). now exists [], t.
    + intros (a & b & Hab). destruct a as [|x a]; [now exists b | discriminate Hab].
  - cbn [contains]. rewrite orb_true_iff, startswith_prefix, IH. split.
    + intros [(t & ->) | (a & b & ->)]; [now exists [], t | now exists (c :: a), b].
    + intros (a & b & Hab). destruct a as [|x a].
      * left. now exists b.
      * right. injection Hab as -> ->. now exists a, b.
Qed.

Lemma contains_char (s : str) (c : char) : contains s [c] = true <-> In c s.
Proof.
  rewrite contains_substring. split.
  - intros (a & b & ->). apply in_or_app. right. now left.
  - intros Hin. apply in_split in Hin as (a & b & ->). now exists a, b.
Qed.

Lemma fold_left_select {A : Type} (keep : A -> bool) (xs acc : list A) :
  fold_left (fun acc x => if keep x then acc ++ [x] else acc) xs acc
  = acc ++ filter keep xs.
Proof.
  revert acc; induction xs as [|x xs IH]; intros acc; cbn.
  - now rewrite app_nil_r.
  - rewrite IH. destruct (keep x); [|reflexivity]. now rewrite <- app_assoc.
Qed.

Lemma filter_filter {A : Type} (f g : A -> bool) (xs : list A) :
  filter g (filter f xs) = filter (fun x => f x && g x) xs.
Proof.
  induction xs as [|x xs IH]; cbn; [reflexivity|].
  destruct (f x); cbn; [destruct (g x)|]; now rewrite IH.
Qed.

Lemma should_keep_second_round (item : str) :
  should_keep item second_round_filter
  = negb (contains item (py "/wiki/Main_page")) && negb (contains item (py ":")).
Proof.
  unfold second_round_filter. cbn [should_keep].
  destruct (contains item (py "/wiki/Main_page")); [reflexivity|].
  now destruct (contains item (py ":")).
Qed.

Lemma filter_links_filter (list_links : list str) :
  filter_links list_links = filter kept list_links.
Proof.
  unfold filter_links. rewrite !fold_left_select, !app_nil_l.
  rewrite filter_filter. apply filter_ext. intros item.
  unfold kept. now rewrite should_keep_second_round.
Qed.

Lemma kept_iff (item : str) :
  kept item = true <->
  (exists title, item = py "/wiki/" ++ title) /\
  ~ (exists before after, item = before ++ py "/wiki/Main_page" ++ after) /\
  ~ In (ch ":") item.
Proof.
  unfold kept.
  rewrite !andb_true_iff, !negb_true_iff, startswith_prefix.
  rewrite <- !not_true_iff_false, contains_substring.
  change (py ":") with [ch ":"]. rewrite contains_char. reflexivity.
Qed.

(** C2, as the code has it.  [filter_links] returns, in input order and
    with repetitions kept, exactly the links that start with the article
    prefix, do not hold the home-page link anywhere inside them and hold
    no colon. *)
Theorem filter_links_keeps (list_links : list str) :
  filter_links list_links = filter kept list_links /\
  forall item,
    kept item = true <->
    (exists title, item = py "/wiki/" ++ title) /\
    ~ (exists before after, item = before ++ py "/wiki/Main_page" ++ after) /\
    ~ In (ch ":") item.
Proof. split; [apply filter_links_filter | apply kept_iff]. Qed.

(** C2, as stated, fails: a link that only begins like the home-page link
    is not equal to it, yet [filter_links] drops it. *)
Lemma filter_links_not_as_specified :
  filter_links [py "/wiki/Main_pages"] = [] /\
  filter_links_as_specified [py "/wiki/Main_pages"] = [py "/wiki/Main_pages"] /\
  filter_links [py "/wiki/Main_pages"] <> filter_links_as_specified [py "/wiki/Main_pages"].
Proof. repeat split. discriminate. Qed.

End PureHelpers.

Section Matcher.

Context {ext : External}.

Lemma find_keyword_matches_fold (words_list keyword_list : list str)
      (match_count : Z) (matched_words : list str) :
  fold_left
    (fun '(match_count, matched_words) word =>
       let lowercase_word := lower word in
       if str_in_list lowercase_word keyword_list
       then ((match_count + 1)%Z, matched_words ++ [lowercase_word])
       else (match_count, matched_words))
    words_list (match_count, matched_words)
  = let found :=
      filter (fun word => str_in_list word keyword_list) (map lower words_list) in
    ((match_count + len found)%Z, matched_words ++ found).
Proof.
  revert match_count matched_words.
  induction words_list as [|w ws IH]; intros c m.
  - unfold len. cbn. now rewrite Z.add_0_r, app_nil_r.
  - cbn [fold_left map filter]. cbv zeta.
    destruct (str_in_list (lower w) keyword_list).
    + rewrite IH. cbv zeta. rewrite <- app_assoc. cbn [List.app]. f_equal.
      unfold len. cbn [List.length]. lia.
    + now rewrite IH.
Qed.

(** C7.  [find_keyword_matches] lower-cases each word, keeps those found
    in the keyword list in input order with their repetitions, and
    returns them with their number. *)
Theorem find_keyword_matches_spec (words_list keyword_list : list str) :
  let found :=
    filter (fun word => str_in_list word keyword_list) (map lower words_list) in
  find_keyword_matches words_list keyword_list = (len found, found) /\
  (forall word, str_in_list word keyword_list = true <-> In word keyword_list) /\
  (forall word,
      find_keyword_matches [word; word] keyword_list
      = if str_in_list (lower word) keyword_list
        then (2%Z, [lower word; lower word])
        else (0%Z, [])).
Proof.
  split; [|split; [intros word; apply str_in_list_In|]].
  - unfold find_keyword_matches. now rewrite find_keyword_matches_fold.
  - intros word. unfold find_keyword_matches. rewrite find_keyword_matches_fold.
    cbn [map filter]. now destruct (str_in_list (lower word) keyword_list).
Qed.

Lemma find_keyword_matches_count (words_list keyword_list : list str) :
  fst (find_keyword_matches words_list keyword_list)
  = len (snd (find_keyword_matches words_list keyword_list)).
Proof.
  unfold find_keyword_matches. now rewrite find_keyword_matches_fold.
Qed.

End Matcher.

(** ** The Page Aggregator and the Subpage Traversal *)

Section Traversal.

Context {ext : External}.

Local Open Scope helpers_scope.

Lemma len_app {A : Type} (xs ys : list A) : len (xs ++ ys) = (len xs + len ys)%Z.
Proof. unfold len. rewrite length_app. lia. Qed.


(** [scrape_page] never raises: it records one request and returns the
    parsed page, or [None] when the fetch fails. *)
Lemma scrape_page_run (title : str) (w : world) :
  exists soup w1,
    scrape_page title w = (Ok soup, w1) /\
    requests w1 = requests w ++ [url_of title] /\
    (soup = None <-> fetch_fails (requests_get (requests w) (url_of title)) = true).
Proof.
  unfold scrape_page, bindM, get, print, ret.
  destruct (requests_get (requests w) (url_of title)) as [status content| |error];
    cbn [fetch_fails].
  - destruct (is_error_status status); eexists _, _; repeat split; cbn; try easy.
  - eexists _, _; repeat split; cbn; easy.
  - eexists _, _; repeat split; cbn; easy.
Qed.

(** One page: a failed fetch ends in [AttributeError], a fetched page in
    four fields whose counts are the lengths of the lists; one request is
    made either way. *)
Lemma find_all_matches_run (title : str) (w : world) :
  exists w1,
    requests w1 = requests w ++ [url_of title] /\
    if fetch_fails (requests_get (requests w) (url_of title))
    then find_all_matches title w = (Raise AttributeError, w1)
    else exists page, find_all_matches title w = (Ok page, w1) /\ invariant page.
Proof.
  destruct (scrape_page_run title w) as (soup & w1 & Hrun & Hreq & Hnone).
  exists w1. split; [exact Hreq|].
  unfold find_all_matches, bindM. rewrite Hrun.
  destruct soup as [soup|].
  - destruct (fetch_fails _); [now destruct Hnone as [_ Hn]; discriminate Hn|].
    cbn [get_words_from_paragraphs find_bullet_words soup_find_all bind lift].
    rewrite !app_nil_l.
    pose proof (find_keyword_matches_count
                  (clean_words_list
                     (fold_left
                        (fun words_list paragraph =>
                           words_list ++ split_ws (get_text paragraph))
                        (find_all soup (py "p")) []))
                  military_terminology) as H1.
    destruct (find_keyword_matches _ military_terminology) as [mc1 mw1] in H1 |- *.
    match goal with
    | |- context [find_keyword_matches ?ws military_terminology] =>
        pose proof (find_keyword_matches_count ws military_terminology) as H2;
        destruct (find_keyword_matches ws military_terminology) as [mc2 mw2]
    end.
    cbn [fst snd] in H1, H2. eexists. split; [reflexivity|].
    cbn. rewrite len_app. split; [lia|reflexivity].
  - destruct Hnone as [Hn _]. rewrite (Hn eq_refl). reflexivity.
Qed.

Lemma find_all_matches_requests (title : str) (w : world) :
  requests (snd (find_all_matches title w)) = requests w ++ [url_of title].
Proof.
  destruct (find_all_matches_run title w) as (w1 & Hreq & Hrun).
  destruct (fetch_fails _).
  - now rewrite Hrun.
  - destruct Hrun as (page & -> & _). exact Hreq.
Qed.

Lemma find_all_matches_invariant (title : str) (w w' : world) (page : fields) :
  find_all_matches title w = (Ok page, w') -> invariant page.
Proof.
  intros Hrun. destruct (find_all_matches_run title w) as (w1 & _ & H).
  destruct (fetch_fails _).
  - rewrite Hrun in H. discriminate H.
  - destruct H as (page' & H & Hinv). rewrite Hrun in H. now injection H as -> _.
Qed.


Lemma visited_requests (links : list str) (w w' : world) (pages : list fields) :
  visited links w pages w' ->
  requests w' = requests w ++ map (fun link => url_of (slice_from link 6)) links.
Proof.
  induction 1 as [w|link rest w w1 w2 page pages Hpage _ IH].
  - cbn. now rewrite app_nil_r.
  - rewrite IH. pose proof (find_all_matches_requests (slice_from link 6) w) as Hreq.
    rewrite Hpage in Hreq. cbn [snd] in Hreq. rewrite Hreq, <- app_assoc.
    reflexivity.
Qed.

(** The loop of [search_subpages] returns exactly when every page of the
    list is visited, with the fields of the pages added in order. *)
Lemma visit_links_visited (links : list str) (acc r : fields) (w w' : world) :
  visit_links links acc w = (Ok r, w') <->
  exists pages, visited links w pages w' /\ r = fold_left add_fields pages acc.
Proof.
  revert acc w; induction links as [|link rest IH]; intros acc w; cbn [visit_links].
  - unfold ret. split.
    + intros [= <- <-]. exists []. split; [constructor|reflexivity].
    + intros (pages & Hv & ->). inversion Hv; subst. reflexivity.
  - unfold bindM. split.
    + destruct (find_all_matches (slice_from link 6) w) as [[page|e] w1] eqn:Hpage;
        [|discriminate].
      intros Hrest. apply IH in Hrest as (pages & Hv & ->).
      exists (page :: pages). split; [econstructor; eassumption|reflexivity].
    + intros (pages & Hv & ->). inversion Hv as [|? ? ? w1 ? page pages' Hpage Hv']; subst.
      rewrite Hpage. apply IH. exists pages'. split; [assumption|reflexivity].
Qed.


End Traversal.

Section TraversalClaims.

Context {ext : External}.

Lemma search_subpages_run (title : str) (imw : list str) (imc : Z)
      (iw : list str) (iwc : Z) (w w' : world) (r : fields) :
  search_subpages title imw imc iw iwc w = (Ok r, w') ->
  exists soup w1 links,
    scrape_page title w = (Ok (Some soup), w1) /\
    requests w1 = requests w ++ [url_of title] /\
    find_links (Some soup) = Ok links /\
    visit_links (filter_links links) (imw, imc, iw, iwc) w1 = (Ok r, w').
Proof.
  unfold search_subpages, bindM, lift.
  destruct (scrape_page_run title w) as (soup & w1 & Hrun & Hreq & _).
  rewrite Hrun. destruct soup as [soup|]; [|discriminate].
  intros Hrest. exists soup, w1. eexists.
  split; [reflexivity|]. split; [exact Hreq|]. split; [reflexivity|].
  exact Hrest.
Qed.

Lemma filter_links_prefixed (links : list str) :
  Forall (fun link => link = py "/wiki/" ++ slice_from link 6) (filter_links links).
Proof.
  rewrite filter_links_filter.
  apply Forall_forall. intros link Hin. apply filter_In in Hin as [_ Hk].
  apply kept_iff in Hk as [(title & ->) _]. reflexivity.
Qed.

Lemma search_subpages_visits (title : str)
        (initial_matched_words : list str) (initial_match_count : Z)
        (initial_words : list str) (initial_word_count : Z)
        (w w' : world) (r : fields) :
  search_subpages title initial_matched_words initial_match_count
    initial_words initial_word_count w = (Ok r, w') ->
  exists soup w1 links pages,
    scrape_page title w = (Ok (Some soup), w1) /\
    find_links (Some soup) = Ok links /\
    Forall (fun link => link = py "/wiki/" ++ slice_from link 6) (filter_links links) /\
    visited (filter_links links) w1 pages w' /\
    r = fold_left add_fields pages
          (initial_matched_words, initial_match_count,
           initial_words, initial_word_count) /\
    requests w'
    = requests w ++ url_of title
        :: map (fun link => url_of (slice_from link 6)) (filter_links links).
Proof.
  intros Hrun.
  apply search_subpages_run in Hrun as (soup & w1 & links & Hscrape & Hreq & Hlinks & Hloop).
  apply visit_links_visited in Hloop as (pages & Hv & ->).
  exists soup, w1, links, pages. repeat split; try assumption.
  - apply filter_links_prefixed.
  - rewrite (visited_requests Hv), Hreq, <- app_assoc. reflexivity.
Qed.


(** The other direction: when the seed page is fetched and every filtered
    link is visited, [search_subpages] returns the sum. *)
Lemma search_subpages_returns (title : str) (imw : list str) (imc : Z)
      (iw : list str) (iwc : Z) (w w1 w' : world) (soup : Soup)
      (links : list str) (pages : list fields) :
  scrape_page title w = (Ok (Some soup), w1) ->
  find_links (Some soup) = Ok links ->
  visited (filter_links links) w1 pages w' ->
  search_subpages title imw imc iw iwc w
  = (Ok (fold_left add_fields pages (imw, imc, iw, iwc)), w').
Proof.
  intros Hscrape Hlinks Hv. unfold search_subpages, bindM, lift.
  rewrite Hscrape, Hlinks. apply visit_links_visited.
  exists pages. split; [assumption|reflexivity].
Qed.


Lemma dict_set_values {V : Type} (P : V -> Prop) (d : dict V) (k : str) (v : V) :
  Forall P (values d) -> P v -> Forall P (values (dict_set d k v)).
Proof.
  intros Hd Hv. induction d as [|[k' v'] d IH]; cbn.
  - now constructor.
  - inversion Hd; subst. destruct (str_eqb k k'); cbn; constructor; auto.
Qed.



(** C1, as the code has it.  When the fetch of a page fails,
    [scrape_page] returns [None] and [find_all_matches] raises
    [AttributeError] instead of returning empty fields; [search_subpages]
    raises it when the seed page fails, and its loop stops at the first
    failing link, the later links never being requested. *)
Theorem fetch_failure_raises (title : str) (w : world) :
  fetch_fails (requests_get (requests w) (url_of title)) = true ->
  fst (find_all_matches title w) = Raise AttributeError /\
  (forall imw imc iw iwc,
      fst (search_subpages title imw imc iw iwc w) = Raise AttributeError) /\
  (forall rest acc,
      let run := visit_links ((py "/wiki/" ++ title) :: rest) acc w in
      fst run = Raise AttributeError /\
      requests (snd run) = requests w ++ [url_of title]).
Proof.
  intros Hfail.
  destruct (find_all_matches_run title w) as (w1 & Hreq & Hrun).
  rewrite Hfail in Hrun.
  split; [now rewrite Hrun|]. split.
  - intros imw imc iw iwc. unfold search_subpages, bindM.
    destruct (scrape_page_run title w) as (soup & w2 & Hscrape & _ & Hnone).
    rewrite Hscrape. apply Hnone in Hfail. subst soup. reflexivity.
  - intros rest acc. cbn [visit_links]. unfold bindM.
    change (slice_from (py "/wiki/" ++ title) 6) with title.
    rewrite Hrun. cbn. split; [reflexivity|exact Hreq].
Qed.

End TraversalClaims.



(** A page of the small site that answers 404. *)
Lemma fetch_failure_raises_witness :
  fetch_fails (@requests_get Toy.external (requests Toy.start) (url_of (py "Gone"))) = true /\
  fst (find_all_matches (ext := Toy.external) (py "Gone") Toy.start) = Raise AttributeError.
Proof.
  split; [reflexivity|].
  exact (proj1 (@fetch_failure_raises Toy.external (py "Gone") Toy.start eq_refl)).
Defined.

(** ** Text written and read back: lines, separators, words and numbers *)

Section WrittenText.

(** *** [for line in file] *)



(** *** [line.split(": ")] *)




(** *** [strip()] and [split()] *)












End WrittenText.

(** ** Numbers written and read back *)

Section WrittenNumbers.









End WrittenNumbers.

(** ** The aggregate map written to its four files and read back *)

Section RoundTrip.









End RoundTrip.

Section RoundTripClaim.









End RoundTripClaim.


Section PercentageClaim.

Variable float : Type.
Variable int_truediv : Z -> Z -> float.
Variable float_mul : float -> Z -> float.


Lemma percentage_loop_returns (counts : list results)
      (acc : list float * list Z * list Z) :
  Forall (fun r => total_word_count r <> 0%Z) counts ->
  exists lists,
    for_each counts
      (fun '(percentages, total_word_counts, match_counts) counts =>
         let total_word_count := total_word_count counts in
         let final_match_count := final_match_count counts in
         bind (truediv int_truediv final_match_count total_word_count) (fun quotient =>
         let percentage := float_mul quotient 100 in
         Ok (percentages ++ [percentage],
             total_word_counts ++ [total_word_count],
             match_counts ++ [final_match_count])))
      acc
    = Ok lists.
Proof.
  intros Hall; revert acc.
  induction Hall as [|r counts Hr _ IH]; intros [[ps ts] ms]; cbn [for_each].
  - now eexists.
  - cbv zeta. unfold truediv at 1.
    apply Z.eqb_neq in Hr. rewrite Hr. cbn [bind]. apply IH.
Qed.

(** With no zero total the function reaches the plotting calls. *)
Lemma plot_stacked_bar_graph_returns (discipline_matches : dict results) :
  Forall (fun r => total_word_count r <> 0%Z) (values discipline_matches) ->
  exists chart,
    plot_stacked_bar_graph int_truediv float_mul discipline_matches = Ok chart.
Proof.
  intros Hall.
  destruct (percentage_loop_returns ([], [], []) Hall) as ([[ps ts] ms] & Heq).
  unfold plot_stacked_bar_graph.
  match goal with
  | |- exists chart, bind ?loop _ = _ =>
      replace loop with (@Ok (list float * list Z * list Z) (ps, ts, ms))
        by (symmetry; exact Heq)
  end.
  cbn [bind]. now eexists.
Qed.


End PercentageClaim.


(** ** More on the Text Cleaner *)

Section CleanerExtra.

Lemma scan_spec_app (a rest : str) :
  forallb (fun c => negb (char_eqb c lbracket)) a = true ->
  scan_spec false (a ++ rest) = scan_spec false a ++ scan_spec false rest.
Proof.
  induction a as [|c a IH]; intros Ha; [reflexivity|].
  cbn [forallb] in Ha. apply andb_true_iff in Ha as [Hc Ha].
  apply negb_true_iff in Hc. cbn [List.app scan_spec]. rewrite Hc.
  destruct (char_in c filter_out); rewrite IH by assumption; reflexivity.
Qed.

Lemma scan_spec_closed (b rest : str) :
  forallb (fun c => negb (char_eqb c rbracket)) b = true ->
  scan_spec true (b ++ rbracket :: rest) = scan_spec false rest.
Proof.
  induction b as [|c b IH]; intros Hb.
  - reflexivity.
  - cbn [forallb] in Hb. apply andb_true_iff in Hb as [Hc Hb].
    apply negb_true_iff in Hc. cbn [List.app scan_spec]. rewrite Hc. now apply IH.
Qed.

Lemma scan_spec_open (b : str) :
  forallb (fun c => negb (char_eqb c rbracket)) b = true ->
  scan_spec true b = [].
Proof.
  induction b as [|c b IH]; intros Hb; [reflexivity|].
  cbn [forallb] in Hb. apply andb_true_iff in Hb as [Hc Hb].
  apply negb_true_iff in Hc. cbn [scan_spec]. rewrite Hc. now apply IH.
Qed.

(** X1.  A bracketed span is deleted whole: when the token has no
    opening bracket before the span and the span has no closing bracket
    inside, cleaning the token gives what cleaning it without the span
    gives. *)
Theorem citation_span_removed (before inside after : str) :
  forallb (fun c => negb (char_eqb c lbracket)) before = true ->
  forallb (fun c => negb (char_eqb c rbracket)) inside = true ->
  clean_words_list [before ++ lbracket :: inside ++ rbracket :: after]
  = clean_words_list [before ++ after].
Proof.
  intros Hb Hi. rewrite !clean_words_list_map. cbn [map].
  rewrite !clean_word_spec, !scan_spec_app by assumption.
  cbn [scan_spec]. change (char_in lbracket filter_out) with false.
  change (char_eqb lbracket lbracket) with true. cbv iota.
  now rewrite scan_spec_closed.
Qed.

(** X2.  An opening bracket that is never closed discards the rest of the
    token. *)
Theorem unterminated_citation_discards (before inside : str) :
  forallb (fun c => negb (char_eqb c lbracket)) before = true ->
  forallb (fun c => negb (char_eqb c rbracket)) inside = true ->
  clean_words_list [before ++ lbracket :: inside] = clean_words_list [before].
Proof.
  intros Hb Hi. rewrite !clean_words_list_map. cbn [map].
  rewrite !clean_word_spec, scan_spec_app by assumption.
  cbn [scan_spec]. change (char_in lbracket filter_out) with false.
  change (char_eqb lbracket lbracket) with true. cbv iota.
  now rewrite scan_spec_open, app_nil_r.
Qed.

Lemma subsequence_refl {A : Type} (l : list A) : subsequence l l.
Proof. induction l; constructor; assumption. Qed.

Lemma subsequence_length {A : Type} (s l : list A) :
  subsequence s l -> (length s <= length l)%nat.
Proof. induction 1; cbn; lia. Qed.

Lemma subsequence_Forall {A : Type} (P : A -> Prop) (s l : list A) :
  subsequence s l -> Forall P l -> Forall P s.
Proof.
  induction 1 as [|x s l _ IH|x s l _ IH]; intros Hl; [constructor| |];
    inversion Hl; subst; auto.
Qed.

Lemma subsequence_filter {A : Type} (f : A -> bool) (l : list A) :
  subsequence (filter f l) l.
Proof.
  induction l as [|x l IH]; cbn; [constructor|].
  destruct (f x); constructor; assumption.
Qed.

Lemma scan_spec_subsequence (in_cite : bool) (w : str) :
  subsequence (scan_spec in_cite w) w.
Proof.
  revert in_cite; induction w as [|c w IH]; intros in_cite; cbn [scan_spec];
    [constructor|].
  destruct in_cite.
  - destruct (char_eqb c rbracket); constructor; apply IH.
  - destruct (char_in c filter_out); [constructor; apply IH|].
    destruct (char_eqb c lbracket); constructor; apply IH.
Qed.

Lemma clean_word_subsequence (word : str) : subsequence (clean_word word) word.
Proof. rewrite clean_word_spec. apply scan_spec_subsequence. Qed.

(** X3.  Cleaning only deletes: the words returned are, in order,
    cleaned versions of some of the tokens, each of them its token with
    characters left out; so there are no more words than tokens. *)
Theorem clean_words_list_only_deletes (words_list : list str) :
  (exists tokens,
      subsequence tokens words_list /\
      Forall2 (fun word token => subsequence word token)
              (clean_words_list words_list) tokens) /\
  (length (clean_words_list words_list) <= length words_list)%nat.
Proof.
  rewrite clean_words_list_map. split.
  - induction words_list as [|w ws (tokens & Hsub & Hall)].
    + exists []. split; constructor.
    + cbn [map filter]. destruct (truthy (clean_word w)).
      * exists (w :: tokens). split; constructor; try assumption.
        apply clean_word_subsequence.
      * exists tokens. split; [now constructor|assumption].
  - rewrite <- (length_map clean_word words_list).
    apply subsequence_length, subsequence_filter.
Qed.

(** X4.  Tokens are cleaned one by one, the skip flag being reset at each
    token: cleaning two lists end to end gives the two cleaned lists end
    to end. *)
Theorem clean_words_list_concat (first second : list str) :
  clean_words_list (first ++ second)
  = clean_words_list first ++ clean_words_list second.
Proof. apply clean_words_list_app. Qed.

End CleanerExtra.

Lemma citation_span_removed_witness :
  clean_words_list [py "end" ++ lbracket :: py "12" ++ rbracket :: py "ing"]
  = clean_words_list [py "end" ++ py "ing"].
Proof. exact (@citation_span_removed (py "end") (py "12") (py "ing") eq_refl eq_refl). Defined.

Lemma unterminated_citation_discards_witness :
  clean_words_list [py "end" ++ lbracket :: py "12, p. 3"] = clean_words_list [py "end"].
Proof. exact (@unterminated_citation_discards (py "end") (py "12, p. 3") eq_refl eq_refl). Defined.

(** ** More on the Keyword Matcher and the Link Filter *)

Section MatcherExtra.

Context {ext : External}.

Lemma find_keyword_matches_found (words_list keyword_list : list str) :
  find_keyword_matches words_list keyword_list
  = (len (filter (fun word => str_in_list word keyword_list) (map lower words_list)),
     filter (fun word => str_in_list word keyword_list) (map lower words_list)).
Proof. unfold find_keyword_matches. now rewrite find_keyword_matches_fold. Qed.

(** X5.  Matching two lists of words end to end gives the sum of the two
    counts and the two lists of matches end to end. *)
Theorem find_keyword_matches_concat (first second keyword_list : list str) :
  find_keyword_matches (first ++ second) keyword_list
  = ((fst (find_keyword_matches first keyword_list)
      + fst (find_keyword_matches second keyword_list))%Z,
     snd (find_keyword_matches first keyword_list)
     ++ snd (find_keyword_matches second keyword_list)).
Proof.
  rewrite !find_keyword_matches_found. cbn [fst snd].
  now rewrite map_app, filter_app, len_app.
Qed.

Lemma len_subsequence {A : Type} (s l : list A) :
  subsequence s l -> (0 <= len s <= len l)%Z.
Proof. intros H. apply subsequence_length in H. unfold len. lia. Qed.

Lemma find_keyword_matches_bounds (words_list keyword_list : list str) :
  (0 <= fst (find_keyword_matches words_list keyword_list) <= len words_list)%Z.
Proof.
  rewrite find_keyword_matches_found. cbn [fst].
  replace (len words_list) with (len (map lower words_list))
    by (unfold len; now rewrite length_map).
  apply len_subsequence, subsequence_filter.
Qed.

(** X6.  The matches are lower-cased input words, in input order, and
    every one of them is in the keyword list; there are never more
    matches than words, and none with an empty keyword list. *)
Theorem find_keyword_matches_sound (words_list keyword_list : list str) :
  subsequence (snd (find_keyword_matches words_list keyword_list))
              (map lower words_list) /\
  Forall (fun word => In word keyword_list)
         (snd (find_keyword_matches words_list keyword_list)) /\
  (0 <= fst (find_keyword_matches words_list keyword_list) <= len words_list)%Z /\
  find_keyword_matches words_list [] = (0%Z, []).
Proof.
  split; [|split; [|split]].
  - rewrite find_keyword_matches_found. apply subsequence_filter.
  - rewrite find_keyword_matches_found. cbn [snd].
    apply Forall_forall. intros w Hw. apply filter_In in Hw as [_ Hw].
    now apply str_in_list_In.
  - apply find_keyword_matches_bounds.
  - rewrite find_keyword_matches_found.
    replace (filter (fun word => str_in_list word []) (map lower words_list))
      with (@nil str); [reflexivity|].
    induction (map lower words_list) as [|w ws IH]; [reflexivity|exact IH].
Qed.

End MatcherExtra.

Section LinkFilterExtra.

Lemma filter_all {A : Type} (f : A -> bool) (l : list A) :
  filter f l = l <-> forallb f l = true.
Proof.
  split.
  - intros Heq. apply forallb_forall. intros x Hx.
    rewrite <- Heq in Hx. now apply filter_In in Hx.
  - induction l as [|x l IH]; [reflexivity|]. cbn.
    intros H. apply andb_true_iff in H as [-> H]. now rewrite IH.
Qed.

Lemma filter_idempotent {A : Type} (f : A -> bool) (l : list A) :
  filter f (filter f l) = filter f l.
Proof.
  apply filter_all, forallb_forall. intros x Hx. now apply filter_In in Hx.
Qed.

(** X7.  Filtering links twice changes nothing more, and filtering two
    lists end to end gives the two filtered lists end to end. *)
Theorem filter_links_idempotent (first second : list str) :
  filter_links (filter_links first) = filter_links first /\
  filter_links (first ++ second) = filter_links first ++ filter_links second.
Proof.
  rewrite !filter_links_filter. split; [apply filter_idempotent|apply filter_app].
Qed.

(** X8.  The filtered list is the input with links left out, and it is
    the whole input exactly when every link passes the tests. *)
Theorem filter_links_unchanged (list_links : list str) :
  subsequence (filter_links list_links) list_links /\
  (filter_links list_links = list_links <-> forallb kept list_links = true).
Proof.
  rewrite filter_links_filter. split; [apply subsequence_filter|apply filter_all].
Qed.

End LinkFilterExtra.

(** ** More on fetching and on the Page Aggregator *)

Section AggregatorExtra.

Context {ext : External}.

Local Open Scope helpers_scope.

(** X9.  [scrape_page] never raises.  It makes one request, to the
    article URL of the title; it returns [None] exactly when the fetch
    fails, and then prints one line, and it prints nothing otherwise. *)
Theorem scrape_page_outcome (title : str) (w : world) :
  exists soup lines,
    scrape_page title w
    = (Ok soup,
       {| requests := requests w ++ [py "https://en.wikipedia.org/wiki/" ++ title];
          stdout := stdout w ++ lines |}) /\
    (soup = None <-> fetch_fails (requests_get (requests w) (url_of title)) = true) /\
    length lines
    = if fetch_fails (requests_get (requests w) (url_of title)) then 1%nat else 0%nat.
Proof.
  unfold scrape_page, bindM, get, print, ret. cbn [requests stdout].
  destruct (requests_get (requests w) (url_of title)) as [status content| |error];
    cbn [fetch_fails].
  - destruct (is_error_status status).
    + exists None. eexists [_]. repeat split; reflexivity.
    + eexists (Some _), []. rewrite app_nil_r. repeat split; try easy.
  - exists None. eexists [_]. repeat split; reflexivity.
  - exists None. eexists [_]. repeat split; reflexivity.
Qed.

Lemma fold_left_app_concat {A B : Type} (f : A -> list B) (xs : list A) (acc : list B) :
  fold_left (fun acc x => acc ++ f x) xs acc = acc ++ List.concat (map f xs).
Proof.
  revert acc; induction xs as [|x xs IH]; intros acc; cbn.
  - now rewrite app_nil_r.
  - now rewrite IH, app_assoc.
Qed.

Lemma clean_bullet_list_tokens (bullets : list str) :
  clean_bullet_list bullets = clean_words_list (List.concat (map split_ws bullets)).
Proof. unfold clean_bullet_list. now rewrite fold_left_app_concat. Qed.

(** A fetched page: the fields are those of one matching pass over all
    the cleaned words of the page. *)
Lemma find_all_matches_fetched (title : str) (w w1 : world) (soup : Soup) :
  scrape_page title w = (Ok (Some soup), w1) ->
  exists words bullets,
    get_words_from_paragraphs (Some soup) = Ok words /\
    find_bullet_words (Some soup) = Ok bullets /\
    let total := clean_words_list (words ++ List.concat (map split_ws bullets)) in
    find_all_matches title w
    = (Ok (snd (find_keyword_matches total military_terminology),
           fst (find_keyword_matches total military_terminology),
           total, len total),
       w1).
Proof.
  intros Hscrape. eexists _, _. split; [reflexivity|]. split; [reflexivity|].
  cbv zeta. unfold find_all_matches, bindM. rewrite Hscrape.
  cbn [get_words_from_paragraphs find_bullet_words soup_find_all bind lift].
  rewrite !find_keyword_matches_found, !app_nil_l, Z.add_0_l.
  rewrite clean_bullet_list_tokens, clean_words_list_app.
  rewrite map_app, filter_app, len_app. cbn [fst snd].
  unfold ret. repeat f_equal; rewrite ?len_app; reflexivity.
Qed.

Lemma find_all_matches_returned (title : str) (w w' : world) (page : fields) :
  find_all_matches title w = (Ok page, w') ->
  exists soup, scrape_page title w = (Ok (Some soup), w').
Proof.
  intros Hrun. destruct (scrape_page_run title w) as ([soup|] & w1 & Hscrape & _ & _).
  - destruct (find_all_matches_fetched _ _ Hscrape) as (words & bullets & _ & _ & Hpage).
    cbv zeta in Hpage. rewrite Hpage in Hrun. injection Hrun as _ ->.
    now exists soup.
  - unfold find_all_matches, bindM in Hrun. rewrite Hscrape in Hrun. discriminate Hrun.
Qed.

(** X10.  The fields of a fetched page are those of a single matching
    pass over its words: the paragraph tokens followed by the tokens of
    the list items, cleaned, are the total words, and the matches and
    their count are those of [find_keyword_matches] on the total words. *)
Theorem find_all_matches_single_pass (title : str) (w w1 : world) (soup : Soup) :
  scrape_page title w = (Ok (Some soup), w1) ->
  exists words bullets,
    get_words_from_paragraphs (Some soup) = Ok words /\
    find_bullet_words (Some soup) = Ok bullets /\
    let total := clean_words_list (words ++ List.concat (map split_ws bullets)) in
    find_all_matches title w
    = (Ok (snd (find_keyword_matches total military_terminology),
           fst (find_keyword_matches total military_terminology),
           total, len total),
       w1).
Proof. apply find_all_matches_fetched. Qed.

Lemma split_ws_aux_tokens (s cur : str) :
  spaceless cur ->
  Forall (fun token => token <> [] /\ spaceless token) (split_ws_aux cur s).
Proof.
  revert cur; induction s as [|c s IH]; intros cur Hcur; cbn [split_ws_aux].
  - destruct cur; constructor; [|constructor]. split; [discriminate|assumption].
  - destruct (isspace c) eqn:Hc.
    + destruct cur as [|x cur]; [apply IH; constructor|].
      constructor; [split; [discriminate|assumption]|apply IH; constructor].
    + apply IH. apply Forall_app. split; [assumption|now repeat constructor].
Qed.

Lemma split_ws_spaceless (s : str) : Forall spaceless (split_ws s).
Proof.
  eapply Forall_impl; [|apply (@split_ws_aux_tokens s []); constructor].
  now intros token [_ H].
Qed.

Lemma plain_colonless (c : char) : plain c = true -> char_eqb c (ch ":") = false.
Proof.
  unfold plain. rewrite andb_true_iff, negb_true_iff. intros [Hp _].
  destruct (char_eqb c (ch ":")) eqn:Hc; [|reflexivity].
  apply N.eqb_eq in Hc. subst. discriminate Hp.
Qed.

Lemma clean_words_list_word_ok (tokens : list str) :
  Forall spaceless tokens -> forallb word_ok (clean_words_list tokens) = true.
Proof.
  intros Htokens. rewrite clean_words_list_map.
  apply forallb_forall. intros word Hin.
  apply filter_In in Hin as [Hin Htruthy].
  apply in_map_iff in Hin as (token & <- & Hin).
  unfold word_ok. rewrite Htruthy. cbn [andb].
  apply forallb_forall. intros c Hc.
  rewrite Forall_forall in Htokens. specialize (Htokens _ Hin).
  pose proof (subsequence_Forall (clean_word_subsequence token) Htokens) as Hs.
  rewrite Forall_forall in Hs. rewrite (Hs _ Hc). cbn [negb andb].
  rewrite clean_word_spec in Hc.
  pose proof (scan_spec_plain false token) as Hp. rewrite Forall_forall in Hp.
  now rewrite (@plain_colonless c (Hp _ Hc)).
Qed.

Lemma concat_Forall {A : Type} (P : A -> Prop) (ls : list (list A)) :
  Forall (Forall P) ls -> Forall P (List.concat ls).
Proof. induction 1; cbn; [constructor|]. apply Forall_app. now split. Qed.

Lemma get_words_from_paragraphs_spaceless (soup : option Soup) (words : list str) :
  get_words_from_paragraphs soup = Ok words -> Forall spaceless words.
Proof.
  destruct soup as [soup|]; [|discriminate].
  cbn [get_words_from_paragraphs soup_find_all bind]. intros [= <-].
  rewrite fold_left_app_concat, app_nil_l.
  apply concat_Forall, Forall_map, Forall_forall. intros p _.
  apply split_ws_spaceless.
Qed.

Lemma find_all_matches_word_ok (title : str) (w w' : world)
      (matched_words words : list str) (match_count word_count : Z) :
  find_all_matches title w = (Ok (matched_words, match_count, words, word_count), w') ->
  forallb word_ok words = true /\ (0 <= match_count <= word_count)%Z.
Proof.
  intros Hrun. destruct (find_all_matches_returned _ _ Hrun) as (soup & Hscrape).
  destruct (find_all_matches_fetched _ _ Hscrape)
    as (ws & bullets & Hws & _ & Hpage).
  cbv zeta in Hpage. rewrite Hpage in Hrun. injection Hrun as <- <- <- <-.
  split; [|apply find_keyword_matches_bounds].
  apply clean_words_list_word_ok, Forall_app. split.
  - eapply get_words_from_paragraphs_spaceless, Hws.
  - apply concat_Forall, Forall_map, Forall_forall. intros b _.
    apply split_ws_spaceless.
Qed.

(** X11.  Every word a page contributes to the total words is not empty
    and holds no white space and no colon, which is what the files of
    [write_to_files] need to be read back. *)
Theorem find_all_matches_words_storable (title : str) (w w' : world)
        (matched_words words : list str) (match_count word_count : Z) :
  find_all_matches title w = (Ok (matched_words, match_count, words, word_count), w') ->
  forallb word_ok words = true.
Proof. intros Hrun. now apply find_all_matches_word_ok in Hrun. Qed.

(** X12.  A page never has more matches than words, so the share of
    matches lies between nought and one. *)
Theorem find_all_matches_bounds (title : str) (w w' : world)
        (matched_words words : list str) (match_count word_count : Z) :
  find_all_matches title w = (Ok (matched_words, match_count, words, word_count), w') ->
  (0 <= match_count <= word_count)%Z.
Proof. intros Hrun. now apply find_all_matches_word_ok in Hrun. Qed.

End AggregatorExtra.

(** The seed page of the small site is fetched and parsed. *)
Lemma find_all_matches_single_pass_witness :
  exists words bullets,
    get_words_from_paragraphs (ext := Toy.external) (Some Toy.seed_page) = Ok words /\
    find_bullet_words (ext := Toy.external) (Some Toy.seed_page) = Ok bullets /\
    let total := clean_words_list (words ++ List.concat (map split_ws bullets)) in
    find_all_matches (ext := Toy.external) (py "Seed") Toy.start
    = (Ok (snd (@find_keyword_matches Toy.external total
                  (@military_terminology Toy.external)),
           fst (@find_keyword_matches Toy.external total
                  (@military_terminology Toy.external)),
           total, len total),
       {| requests := [py "https://en.wikipedia.org/wiki/Seed"]; stdout := [] |}).
Proof.
  exact (@find_all_matches_single_pass Toy.external (py "Seed") Toy.start _
           Toy.seed_page eq_refl).
Defined.

Lemma find_all_matches_words_storable_witness :
  find_all_matches (ext := Toy.external) (py "Seed") Toy.start
  = (Ok ([py "army"; py "war"; py "navy"], 3%Z,
         [py "The"; py "Army"; py "built"; py "it"; py "War"; py "1914";
          py "navy"; py "ships"],
         8%Z),
     {| requests := [py "https://en.wikipedia.org/wiki/Seed"]; stdout := [] |}) /\
  forallb word_ok
    [py "The"; py "Army"; py "built"; py "it"; py "War"; py "1914"; py "navy"; py "ships"]
  = true.
Proof.
  split; [reflexivity|].
  exact (@find_all_matches_words_storable Toy.external (py "Seed") Toy.start
           {| requests := [py "https://en.wikipedia.org/wiki/Seed"]; stdout := [] |}
           [py "army"; py "war"; py "navy"]
           [py "The"; py "Army"; py "built"; py "it"; py "War"; py "1914";
            py "navy"; py "ships"]
           3%Z 8%Z eq_refl).
Defined.

Lemma find_all_matches_bounds_witness :
  find_all_matches (ext := Toy.external) (py "Seed") Toy.start
  = (Ok ([py "army"; py "war"; py "navy"], 3%Z,
         [py "The"; py "Army"; py "built"; py "it"; py "War"; py "1914";
          py "navy"; py "ships"],
         8%Z),
     {| requests := [py "https://en.wikipedia.org/wiki/Seed"]; stdout := [] |}) /\
  (0 <= 3 <= 8)%Z.
Proof.
  split; [reflexivity|].
  exact (@find_all_matches_bounds Toy.external (py "Seed") Toy.start
           {| requests := [py "https://en.wikipedia.org/wiki/Seed"]; stdout := [] |}
           [py "army"; py "war"; py "navy"]
           [py "The"; py "Army"; py "built"; py "it"; py "War"; py "1914";
            py "navy"; py "ships"]
           3%Z 8%Z eq_refl).
Defined.

(** ** More on the Subpage Traversal and on [process_disciplines] *)

Section TraversalExtra.

Context {ext : External}.

Local Open Scope helpers_scope.

(** X13.  A seed page none of whose links passes the filter adds nothing:
    the initial fields come back as they are, after the one request for
    the seed page. *)
Theorem search_subpages_no_links (title : str) (w w1 : world) (soup : Soup)
        (links : list str) (initial_matched_words : list str) (initial_match_count : Z)
        (initial_words : list str) (initial_word_count : Z) :
  scrape_page title w = (Ok (Some soup), w1) ->
  find_links (Some soup) = Ok links ->
  filter_links links = [] ->
  search_subpages title initial_matched_words initial_match_count
    initial_words initial_word_count w
  = (Ok (initial_matched_words, initial_match_count, initial_words, initial_word_count),
     w1).
Proof.
  intros Hscrape Hlinks Hnone. unfold search_subpages, bindM, lift.
  rewrite Hscrape, Hlinks, Hnone. reflexivity.
Qed.

(** What a visited page is known to satisfy. *)
Lemma visited_pages (links : list str) (w w' : world) (pages : list fields) :
  visited links w pages w' ->
  Forall (fun page =>
            let '(matched_words, match_count, words, word_count) := page in
            match_count = len matched_words /\ word_count = len words /\
            forallb word_ok words = true /\
            (0 <= len matched_words <= len words)%Z)
         pages.
Proof.
  induction 1 as [|link rest w w1 w2 page pages Hpage _ IH]; constructor; [|exact IH].
  destruct page as [[[mw mc] ws] wc].
  pose proof (find_all_matches_invariant _ _ Hpage) as [Hmc Hwc].
  pose proof (find_all_matches_word_ok _ _ Hpage) as [Hok Hb].
  subst. repeat split; try assumption; lia.
Qed.

Lemma fold_add_fields_added (pages : list fields) (a : list str) (b : Z)
      (c : list str) (d : Z) :
  Forall (fun page =>
            let '(matched_words, match_count, words, word_count) := page in
            match_count = len matched_words /\ word_count = len words /\
            forallb word_ok words = true /\
            (0 <= len matched_words <= len words)%Z)
         pages ->
  exists added_matches added_words,
    fold_left add_fields pages (a, b, c, d)
    = (a ++ added_matches, (b + len added_matches)%Z,
       c ++ added_words, (d + len added_words)%Z) /\
    forallb word_ok added_words = true /\
    (0 <= len added_matches <= len added_words)%Z.
Proof.
  intros Hpages; revert a b c d.
  induction Hpages as [|[[[mw mc] ws] wc] pages (-> & -> & Hok & Hb) _ IH];
    intros a b c d.
  - exists [], []. cbn. rewrite !app_nil_r, !Z.add_0_r. repeat split; lia.
  - cbn [fold_left add_fields].
    destruct (IH (a ++ mw) (b + len mw)%Z (c ++ ws) (d + len ws)%Z)
      as (am & aw & -> & Hok' & Hb').
    exists (mw ++ am), (ws ++ aw). rewrite !len_app, <- !app_assoc, forallb_app, Hok, Hok'.
    rewrite !Z.add_assoc. split; [reflexivity|]. split; [reflexivity|lia].
Qed.

Lemma search_subpages_added (title : str) (imw : list str) (imc : Z)
      (iw : list str) (iwc : Z) (w w' : world) (r : fields) :
  search_subpages title imw imc iw iwc w = (Ok r, w') ->
  exists added_matches added_words,
    r = (imw ++ added_matches, (imc + len added_matches)%Z,
         iw ++ added_words, (iwc + len added_words)%Z) /\
    forallb word_ok added_words = true /\
    (0 <= len added_matches <= len added_words)%Z.
Proof.
  intros Hrun. apply search_subpages_visits in Hrun
    as (soup & w1 & links & pages & _ & _ & _ & Hv & -> & _).
  apply fold_add_fields_added. eapply visited_pages, Hv.
Qed.


Lemma dict_set_keys {V : Type} (d : dict V) (k : str) (v : V) :
  keys (dict_set d k v) = if str_in_list k (keys d) then keys d else keys d ++ [k].
Proof.
  induction d as [|[k' v'] d IH]; [reflexivity|].
  unfold keys, str_in_list in *. cbn [dict_set map fst existsb].
  destruct (str_eqb k k'); cbn [orb map fst]; [reflexivity|].
  rewrite IH. now destruct (existsb (str_eqb k) (map fst d)).
Qed.

Lemma dict_set_well_formed {V : Type} (d : dict V) (k : str) (v : V) :
  well_formed d -> well_formed (dict_set d k v).
Proof.
  unfold well_formed. rewrite dict_set_keys. intros Hd.
  destruct (str_in_list k (keys d)) eqn:Hin; [assumption|].
  apply NoDup_app; [assumption|repeat constructor; easy|].
  intros x Hx [<-|[]]. apply str_in_list_In in Hx. congruence.
Qed.

Lemma dict_set_In_keys {V : Type} (d : dict V) (k : str) (v : V) (x : str) :
  In x (keys (dict_set d k v)) <-> In x (keys d) \/ x = k.
Proof.
  rewrite dict_set_keys. destruct (str_in_list k (keys d)) eqn:Hin.
  - apply str_in_list_In in Hin. split; [tauto|]. intros [H| ->]; assumption.
  - rewrite in_app_iff. cbn. intuition.
Qed.

Lemma process_each_keys (disciplines : list str) (acc d : dict results)
      (w w' : world) :
  process_each disciplines acc w = (Ok d, w') ->
  well_formed acc ->
  well_formed d /\
  (forall k, In k (keys d) <-> In k (keys acc) \/ In k disciplines) /\
  (NoDup (keys acc ++ disciplines) -> keys d = keys acc ++ disciplines).
Proof.
  revert acc w; induction disciplines as [|title rest IH]; intros acc w;
    cbn [process_each].
  - unfold ret. intros [= <- _] Hwf. split; [assumption|]. split.
    + intros k. cbn. tauto.
    + now rewrite app_nil_r.
  - unfold bindM at 1.
    destruct (find_all_matches title w) as [[[[[mw mc] ws] wc]|e] w1]; [|discriminate].
    unfold bindM at 1.
    destruct (search_subpages title mw mc ws wc w1) as [[[[[fmw fmc] tws] twc]|e] w2];
      [|discriminate].
    intros Hrest Hwf.
    apply IH in Hrest as (Hwf' & Hin & Hkeys); [|now apply dict_set_well_formed].
    split; [assumption|]. split.
    + intros k. rewrite Hin, dict_set_In_keys. cbn. intuition.
    + intros Hnd. rewrite Hkeys; rewrite dict_set_keys.
      * replace (str_in_list title (keys acc)) with false; [now rewrite <- app_assoc|].
        symmetry. apply not_true_iff_false. intros Hc. apply str_in_list_In in Hc.
        apply NoDup_remove_2 in Hnd. apply Hnd, in_or_app. now left.
      * replace (str_in_list title (keys acc)) with false; [now rewrite <- app_assoc|].
        symmetry. apply not_true_iff_false. intros Hc. apply str_in_list_In in Hc.
        apply NoDup_remove_2 in Hnd. apply Hnd, in_or_app. now left.
Qed.

(** X15.  The aggregate map of [process_disciplines] holds each requested
    topic once and no other; when no topic is requested twice, its topics
    are the requested ones in the order requested. *)
Theorem process_disciplines_topics (engineering_disciplines : list str)
        (w w' : world) (discipline_matches : dict results) :
  process_disciplines engineering_disciplines w = (Ok discipline_matches, w') ->
  well_formed discipline_matches /\
  (forall topic,
      In topic (keys discipline_matches) <-> In topic engineering_disciplines) /\
  (NoDup engineering_disciplines ->
   keys discipline_matches = engineering_disciplines).
Proof.
  intros Hrun. apply process_each_keys in Hrun as (Hwf & Hin & Hkeys); [|constructor].
  split; [assumption|]. split; [|exact Hkeys].
  intros topic. rewrite Hin. cbn. tauto.
Qed.



Lemma process_each_entries (disciplines : list str) (acc d : dict results)
      (w w' : world) :
  Forall (fun r => forallb word_ok (total_words r) = true /\
                   (0 <= final_match_count r <= total_word_count r)%Z)
         (values acc) ->
  process_each disciplines acc w = (Ok d, w') ->
  Forall (fun r => forallb word_ok (total_words r) = true /\
                   (0 <= final_match_count r <= total_word_count r)%Z)
         (values d).
Proof.
  revert acc w; induction disciplines as [|title rest IH]; intros acc w Hacc;
    cbn [process_each].
  - unfold ret. now intros [= <- _].
  - unfold bindM at 1.
    destruct (find_all_matches title w) as [[[[[mw mc] ws] wc]|e] w1] eqn:Hpage;
      [|discriminate].
    apply find_all_matches_word_ok in Hpage as [Hok Hb].
    unfold bindM at 1.
    destruct (search_subpages title mw mc ws wc w1) as [[r|e] w2] eqn:Hsub;
      [|discriminate].
    apply search_subpages_added in Hsub as (am & aw & -> & Hok' & Hb').
    apply IH. apply dict_set_values; [assumption|].
    cbn. rewrite forallb_app, Hok, Hok'. split; [reflexivity|lia].
Qed.

(** X17.  In every entry of the aggregate map of [process_disciplines]
    the match count lies between nought and the total word count, and the
    total words are not empty and hold no white space and no colon. *)
Theorem process_disciplines_entries (engineering_disciplines : list str)
        (w w' : world) (discipline_matches : dict results) :
  process_disciplines engineering_disciplines w = (Ok discipline_matches, w') ->
  Forall (fun r => forallb word_ok (total_words r) = true /\
                   (0 <= final_match_count r <= total_word_count r)%Z)
         (values discipline_matches).
Proof. apply process_each_entries. constructor. Qed.

End TraversalExtra.

(** A page of the small site without links. *)
Lemma search_subpages_no_links_witness :
  search_subpages (ext := Toy.external) (py "Leaf") [py "army"] 1 [py "An"; py "army"] 2
    Toy.start
  = (Ok ([py "army"], 1%Z, [py "An"; py "army"], 2%Z),
     {| requests := [py "https://en.wikipedia.org/wiki/Leaf"]; stdout := [] |}).
Proof.
  exact (@search_subpages_no_links Toy.external (py "Leaf") Toy.start
           {| requests := [py "https://en.wikipedia.org/wiki/Leaf"]; stdout := [] |}
           Toy.only_text_page [] [py "army"] 1%Z [py "An"; py "army"] 2%Z
           eq_refl eq_refl eq_refl).
Defined.


(** The aggregate map of two topics of the small site. *)
Lemma process_disciplines_topics_witness :
  process_disciplines (ext := Toy.external) [py "Seed"; py "Leaf"] Toy.start
  = (Ok Toy.two_topics, Toy.two_topics_world) /\
  well_formed Toy.two_topics /\
  (forall topic, In topic (keys Toy.two_topics) <-> In topic [py "Seed"; py "Leaf"]) /\
  (NoDup [py "Seed"; py "Leaf"] -> keys Toy.two_topics = [py "Seed"; py "Leaf"]).
Proof.
  split; [reflexivity|].
  exact (@process_disciplines_topics Toy.external [py "Seed"; py "Leaf"]
           Toy.start Toy.two_topics_world Toy.two_topics eq_refl).
Defined.


Lemma process_disciplines_entries_witness :
  process_disciplines (ext := Toy.external) [py "Seed"; py "Leaf"] Toy.start
  = (Ok Toy.two_topics, Toy.two_topics_world) /\
  Forall (fun r => forallb word_ok (total_words r) = true /\
                   (0 <= final_match_count r <= total_word_count r)%Z)
         (values Toy.two_topics).
Proof.
  split; [reflexivity|].
  exact (@process_disciplines_entries Toy.external [py "Seed"; py "Leaf"]
           Toy.start Toy.two_topics_world Toy.two_topics eq_refl).
Defined.

(** ** More on the four files *)

Section FilesExtra.

Lemma written_paths_distinct :
  NoDup [final_matched_words_path; total_words_path;
         final_match_counts_path; total_word_counts_path].
Proof.
  repeat constructor; cbn; intros H;
    repeat (destruct H as [H|H]; [discriminate H|]); exact H.
Qed.


Lemma for_each_raises {A S : Type} (xs : list A) (body : S -> A -> result S)
      (s : S) (e : exn) :
  for_each xs body s = Raise e ->
  exists s' x, In x xs /\ body s' x = Raise e.
Proof.
  revert s; induction xs as [|x xs IH]; intros s; cbn [for_each]; [discriminate|].
  destruct (body s x) as [s'|e'] eqn:Hb; cbn [bind].
  - intros H. apply IH in H as (s'' & y & Hy & Hr). exists s'', y. now split; [right|].
  - intros [= ->]. exists s, x. now split; [left|].
Qed.

Lemma for_each_must_raise {A S : Type} (xs : list A) (body : S -> A -> result S)
      (s : S) (e : exn) :
  (forall s x, In x xs -> (exists s', body s x = Ok s') \/ body s x = Raise e) ->
  Exists (fun x => forall s, body s x = Raise e) xs ->
  for_each xs body s = Raise e.
Proof.
  intros Hall Hex; revert s.
  induction xs as [|x xs IH]; intros s; [inversion Hex|]. cbn [for_each].
  destruct (Hall s x (or_introl eq_refl)) as [(s' & Hs)|Hs]; rewrite Hs;
    [|reflexivity].
  cbn [bind]. inversion Hex as [? ? Hx|? ? Hx]; subst.
  - specialize (Hx s). rewrite Hs in Hx. discriminate Hx.
  - apply IH; [|assumption]. intros s0 y Hy. apply Hall. now right.
Qed.

Lemma int_of_str_raises (s : str) (e : exn) : int_of_str s = Raise e -> e = ValueError.
Proof.
  unfold int_of_str. destruct (strip s) as [|c s']; [now intros [= <-]|].
  destruct (char_eqb c (ch "-")); [destruct (uint_of_chars false s'); now intros [= <-]|].
  destruct (char_eqb c (ch "+")); [destruct (uint_of_chars false s'); now intros [= <-]|].
  destruct (uint_of_chars false (c :: s')); now intros [= <-].
Qed.

Lemma read_dict_raises {V : Type} (fs : filesystem) (path : str)
      (parse : str -> result V) (e : exn) :
  (forall s e', parse s = Raise e' -> e' = ValueError) ->
  read_dict fs path parse = Raise e ->
  (e = FileNotFoundError /\ fs path = None) \/ e = ValueError.
Proof.
  intros Hparse. unfold read_dict, read_file.
  destruct (fs path) as [content|]; cbn [bind]; [|intros [= <-]; now left].
  intros Hrun. right. apply for_each_raises in Hrun as (d & line & _ & Hline).
  destruct (split_sep line (py ": ")) as [|a [|b [|c rest]]]; try (now injection Hline).
  destruct (parse b) as [v|e'] eqn:Hp; cbn [bind] in Hline; [discriminate|].
  injection Hline as <-. now apply Hparse in Hp.
Qed.

Lemma read_dict_missing {V : Type} (fs : filesystem) (path : str)
      (parse : str -> result V) :
  fs path = None -> read_dict fs path parse = Raise FileNotFoundError.
Proof. intros H. unfold read_dict, read_file. now rewrite H. Qed.

(** X19.  When one of the four files is missing, no map is returned:
    [create_discipline_matches] raises [FileNotFoundError], unless a file
    read before the missing one is malformed, which raises [ValueError]. *)
Theorem reload_missing_file (path1 path2 path3 path4 : str) (fs : filesystem) :
  fs path1 = None \/ fs path2 = None \/ fs path3 = None \/ fs path4 = None ->
  create_discipline_matches path1 path2 path3 path4 fs = Raise FileNotFoundError \/
  create_discipline_matches path1 path2 path3 path4 fs = Raise ValueError.
Proof.
  intros Hmissing. unfold create_discipline_matches.
  assert (forall s e', (fun words : str => Ok (split_ws (strip words))) s = Raise e' ->
                       e' = ValueError) as Hwords by discriminate.
  assert (forall s e', (fun count : str => int_of_str (strip count)) s = Raise e' ->
                       e' = ValueError) as Hcount
      by (intros s e'; apply int_of_str_raises).
  destruct (read_dict fs path1 _) as [d1|e1] eqn:H1; cbn [bind];
    [|apply (read_dict_raises _ _ _ Hwords) in H1; intuition (subst; auto)].
  destruct (read_dict fs path2 _) as [d2|e2] eqn:H2; cbn [bind];
    [|apply (read_dict_raises _ _ _ Hwords) in H2; intuition (subst; auto)].
  destruct (read_dict fs path3 _) as [d3|e3] eqn:H3; cbn [bind];
    [|apply (read_dict_raises _ _ _ Hcount) in H3; intuition (subst; auto)].
  destruct (read_dict fs path4 _) as [d4|e4] eqn:H4; cbn [bind];
    [|apply (read_dict_raises _ _ _ Hcount) in H4; intuition (subst; auto)].
  destruct Hmissing as [H|[H|[H|H]]];
    [rewrite (@read_dict_missing _ fs path1 _ H) in H1
    |rewrite (@read_dict_missing _ fs path2 _ H) in H2
    |rewrite (@read_dict_missing _ fs path3 _ H) in H3
    |rewrite (@read_dict_missing _ fs path4 _ H) in H4]; discriminate.
Qed.

Lemma split_sep_aux_without (s cur : str) :
  contains s (py ": ") = false -> split_sep_aux (py ": ") cur s 0 = [cur ++ s].
Proof.
  revert cur; induction s as [|c s IH]; intros cur Hno.
  - cbn. now rewrite app_nil_r.
  - cbn [contains] in Hno. apply orb_false_iff in Hno as [Hhere Hlater].
    cbn [split_sep_aux]. rewrite Hhere, IH by assumption.
    now rewrite <- app_assoc.
Qed.

(** X20.  A line of the matched-words file without the separator, a
    blank line for one, makes [create_discipline_matches] raise
    [ValueError]. *)
Theorem reload_line_without_separator (path1 path2 path3 path4 content : str)
        (fs : filesystem) :
  fs path1 = Some content ->
  Exists (fun line => contains line (py ": ") = false) (readlines content) ->
  create_discipline_matches path1 path2 path3 path4 fs = Raise ValueError.
Proof.
  intros Hfile Hline. unfold create_discipline_matches.
  replace (read_dict fs path1 (fun words : str => Ok (split_ws (strip words))))
    with (@Raise (dict (list str)) ValueError); [reflexivity|].
  symmetry. unfold read_dict, read_file. rewrite Hfile. cbn [bind].
  apply for_each_must_raise.
  - intros d line _.
    destruct (split_sep line (py ": ")) as [|a [|b [|c rest]]]; auto.
    left. cbn [bind]. now eexists.
  - eapply Exists_impl; [|exact Hline]. intros line Hno d. cbn beta in Hno.
    unfold split_sep. now rewrite split_sep_aux_without.
Qed.

End FilesExtra.

(** No file at all. *)
Lemma reload_missing_file_witness :
  create_discipline_matches
    final_matched_words_path total_words_path
    final_match_counts_path total_word_counts_path no_files
  = Raise FileNotFoundError \/
  create_discipline_matches
    final_matched_words_path total_words_path
    final_match_counts_path total_word_counts_path no_files
  = Raise ValueError.
Proof.
  exact (@reload_missing_file final_matched_words_path total_words_path
           final_match_counts_path total_word_counts_path no_files (or_introl eq_refl)).
Defined.

(** A matched-words file that ends in a blank line. *)
Lemma reload_line_without_separator_witness :
  create_discipline_matches
    final_matched_words_path total_words_path
    final_match_counts_path total_word_counts_path
    (write_file no_files final_matched_words_path (py "Seed: army war" ++ [newline; newline]))
  = Raise ValueError.
Proof.
  apply (@reload_line_without_separator final_matched_words_path total_words_path
           final_match_counts_path total_word_counts_path
           (py "Seed: army war" ++ [newline; newline])
           (write_file no_files final_matched_words_path
              (py "Seed: army war" ++ [newline; newline]))
           eq_refl).
  right. left. reflexivity.
Defined.

(** ** Reloading files that were not written together *)

Section ReloadExtra.









End ReloadExtra.



(** ** The reports *)

Section StackedBarExtra.

Variable float : Type.
Variable int_truediv : Z -> Z -> float.
Variable float_mul : float -> Z -> float.



End StackedBarExtra.


Section DisplayExtra.



End DisplayExtra.

Section WordcloudExtra.

Variable Image : Type.
Variable generate : str -> result Image.
Variable render : results -> Image.

Lemma axes_at_inside (i : Z) :
  (0 <= i < 6)%Z -> axes_at (i / 3) (i mod 3) = Some ((i / 3)%Z, (i mod 3)%Z).
Proof.
  intros Hi.
  assert (i = 0 \/ i = 1 \/ i = 2 \/ i = 3 \/ i = 4 \/ i = 5)%Z as Hcases by lia.
  repeat (destruct Hcases as [->|Hcases]; [reflexivity|]). now subst.
Qed.

Lemma axes_at_outside (i : Z) : (6 <= i)%Z -> axes_at (i / 3) (i mod 3) = None.
Proof.
  intros Hi. assert (2 <= i / 3)%Z as Hrow by (apply Z.div_le_lower_bound; lia).
  unfold axes_at, axis_index.
  replace ((0 <=? i / 3) && (i / 3 <? 2))%Z with false
    by (symmetry; apply andb_false_iff; right; apply Z.ltb_ge; lia).
  replace ((- (2) <=? i / 3) && (i / 3 <? 0))%Z with false
    by (symmetry; apply andb_false_iff; right; apply Z.ltb_ge; lia).
  reflexivity.
Qed.

Lemma draw_clouds_run (items : dict results) (i : Z) (drawn : list (drawing Image)) :
  (0 <= i <= 6)%Z ->
  Forall (fun entry =>
            generate (join (py " ") (final_matched_words (snd entry)))
            = Ok (render (snd entry)))
         items ->
  draw_clouds generate i items drawn
  = if (i + len items <=? 6)%Z
    then (Returns, drawn ++ placed render i items)
    else (IndexError,
          drawn ++ placed render i (firstn (Z.to_nat (6 - i)) items)).
Proof.
  intros Hi Hall; revert i drawn Hi.
  induction Hall as [|[topic r] items Hgen _ IH]; intros i drawn Hi.
  - cbn [draw_clouds placed]. unfold len. cbn [List.length].
    replace (i + Z.of_nat 0 <=? 6)%Z with true by (symmetry; apply Z.leb_le; lia).
    now rewrite app_nil_r.
  - cbn [draw_clouds]. cbn [snd] in Hgen. cbv zeta. rewrite Hgen.
    assert (len ((topic, r) :: items) = (1 + len items)%Z) as Hlen
        by (unfold len; cbn [List.length]; lia).
    rewrite Hlen.
    destruct (Z.lt_ge_cases i 6) as [Hin|Hout].
    + rewrite axes_at_inside by lia. rewrite IH by lia.
      replace (i + 1 + len items)%Z with (i + (1 + len items))%Z by lia.
      destruct (i + (1 + len items) <=? 6)%Z.
      * cbn [placed]. now rewrite <- app_assoc.
      * replace (Z.to_nat (6 - i)) with (S (Z.to_nat (6 - (i + 1)))) by lia.
        cbn [firstn placed]. now rewrite <- app_assoc.
    + rewrite axes_at_outside by lia.
      replace (i + (1 + len items) <=? 6)%Z with false
        by (symmetry; apply Z.leb_gt; unfold len; lia).
      replace (Z.to_nat (6 - i)) with 0%nat by lia.
      cbn [firstn placed]. now rewrite app_nil_r.
Qed.

(** X25.  With at most six topics, and a word cloud generated for each,
    [gen_wordcloud] draws topic number [i] in row [i // 3] and column
    [i % 3] of the 2 by 3 grid, lays the figure out and shows it. *)
Theorem gen_wordcloud_grid (discipline_matches : dict results) :
  (length discipline_matches <= 6)%nat ->
  Forall (fun entry =>
            generate (join (py " ") (final_matched_words (snd entry)))
            = Ok (render (snd entry)))
         discipline_matches ->
  gen_wordcloud generate discipline_matches
  = (Returns, placed render 0 discipline_matches ++ [TightLayout Image; Show Image]).
Proof.
  intros Hlen Hall. unfold gen_wordcloud.
  rewrite (@draw_clouds_run discipline_matches 0 [] (conj (Z.le_refl 0) (Zle_0_pos 6)) Hall).
  replace (0 + len discipline_matches <=? 6)%Z with true
    by (symmetry; apply Z.leb_le; unfold len; lia).
  reflexivity.
Qed.

(** X26.  With more than six topics, and a word cloud generated for each,
    [gen_wordcloud] draws the first six and raises [IndexError] at the
    seventh, for which the grid has no row; the figure is never shown. *)
Theorem gen_wordcloud_overflow (discipline_matches : dict results) :
  (6 < length discipline_matches)%nat ->
  Forall (fun entry =>
            generate (join (py " ") (final_matched_words (snd entry)))
            = Ok (render (snd entry)))
         discipline_matches ->
  gen_wordcloud generate discipline_matches
  = (IndexError, placed render 0 (firstn 6 discipline_matches)).
Proof.
  intros Hlen Hall. unfold gen_wordcloud.
  rewrite (@draw_clouds_run discipline_matches 0 [] (conj (Z.le_refl 0) (Zle_0_pos 6)) Hall).
  replace (0 + len discipline_matches <=? 6)%Z with false
    by (symmetry; apply Z.leb_gt; unfold len; lia).
  reflexivity.
Qed.

End WordcloudExtra.

(** Two topics, the word cloud of a text being the text itself. *)
Lemma gen_wordcloud_grid_witness :
  gen_wordcloud (fun text => Ok text) Toy.two_topics
  = (Returns,
     placed (fun r => join (py " ") (final_matched_words r)) 0 Toy.two_topics
     ++ [TightLayout str; Show str]).
Proof.
  apply (@gen_wordcloud_grid str (fun text => Ok text)
           (fun r => join (py " ") (final_matched_words r)) Toy.two_topics).
  - cbn. lia.
  - repeat constructor.
Defined.

(** Seven topics. *)
Lemma gen_wordcloud_overflow_witness :
  gen_wordcloud (fun text => Ok text) Toy.seven_topics
  = (IndexError,
     placed (fun r => join (py " ") (final_matched_words r)) 0
            (firstn 6 Toy.seven_topics)).
Proof.
  apply (@gen_wordcloud_overflow str (fun text => Ok text)
           (fun r => join (py " ") (final_matched_words r)) Toy.seven_topics).
  - cbn. lia.
  - repeat constructor.
Defined.

(** ** The Page Extractor *)

Section ExtractorsExtra.

Context {ext : External}.

(** X27.  [clean_bullet_list] cleans the tokens of all the items taken
    together: its words are not empty and hold no punctuation character,
    no opening bracket, no white space and no colon, and two lists of
    items end to end give the two results end to end. *)
Theorem clean_bullet_list_words (first second : list str) :
  Forall (fun word => word <> [] /\
                      Forall (fun c => ~ In c filter_out /\ c <> lbracket) word)
         (clean_bullet_list first) /\
  forallb word_ok (clean_bullet_list first) = true /\
  clean_bullet_list (first ++ second)
  = clean_bullet_list first ++ clean_bullet_list second.
Proof.
  rewrite !clean_bullet_list_tokens. split; [|split].
  - eapply Forall_impl; [|apply clean_words_list_cleaned].
    intros word [Ht Hp]. split; [intros ->; discriminate Ht|].
    eapply Forall_impl; [|exact Hp]. intros c Hc. now apply plain_chars.
  - apply clean_words_list_word_ok, concat_Forall, Forall_map, Forall_forall.
    intros b _. apply split_ws_spaceless.
  - now rewrite map_app, concat_app, clean_words_list_app.
Qed.

(** X28.  [get_words_from_paragraphs] raises [AttributeError] on the
    [None] of a failed fetch; on a parsed page it returns the tokens of
    the paragraphs in document order, none of them empty or holding white
    space. *)
Theorem get_words_from_paragraphs_tokens (soup : Soup) :
  get_words_from_paragraphs None = Raise AttributeError /\
  get_words_from_paragraphs (Some soup)
  = Ok (List.concat (map (fun paragraph => split_ws (get_text paragraph))
                         (find_all soup (py "p")))) /\
  Forall (fun token => token <> [] /\ Forall (fun c => isspace c = false) token)
         (List.concat (map (fun paragraph => split_ws (get_text paragraph))
                           (find_all soup (py "p")))).
Proof.
  split; [reflexivity|]. split.
  - cbn [get_words_from_paragraphs soup_find_all bind].
    now rewrite fold_left_app_concat.
  - apply concat_Forall, Forall_map, Forall_forall. intros paragraph _.
    apply (@split_ws_aux_tokens (get_text paragraph) []). constructor.
Qed.

Lemma find_bullet_words_fold (bullet_lists : list Tag) (acc : list str) :
  Forall (fun bullet => find_previous_sibling bullet (py "p") = None \/
                        find_next_sibling bullet (py "p") = None)
         bullet_lists ->
  fold_left
    (fun bullet_lists_organized bullet =>
       if is_some (find_previous_sibling bullet (py "p"))
          && is_some (find_next_sibling bullet (py "p"))
       then
         fold_left
           (fun organized item =>
              let cleaned_item := replace (get_text item) nbsp_en_dash [] in
              organized ++ [cleaned_item])
           (tag_find_all bullet (py "li")) bullet_lists_organized
       else bullet_lists_organized)
    bullet_lists acc
  = acc.
Proof.
  induction 1 as [|bullet rest Hb _ IH]; cbn [fold_left]; [reflexivity|].
  replace (is_some (find_previous_sibling bullet (py "p"))
           && is_some (find_next_sibling bullet (py "p"))) with false; [exact IH|].
  destruct Hb as [-> | ->]; cbn [is_some andb]; [reflexivity|].
  now destruct (find_previous_sibling bullet (py "p")).
Qed.

(** X29.  Lists that lack a paragraph before them or after them, as the
    navigation lists do, give no text: a page with such lists only has no
    list text at all. *)
Theorem find_bullet_words_outside_text (soup : Soup) :
  Forall (fun bullet => find_previous_sibling bullet (py "p") = None \/
                        find_next_sibling bullet (py "p") = None)
         (find_all soup (py "ul")) ->
  find_bullet_words (Some soup) = Ok [].
Proof.
  intros Hall. cbn [find_bullet_words soup_find_all bind].
  now rewrite find_bullet_words_fold.
Qed.

Lemma find_links_fold (links : list Tag) (acc : list str) :
  Forall (fun href => href <> []) acc ->
  Forall (fun href => href <> [])
         (fold_left
            (fun list_links link =>
               match tag_get link (py "href") with
               | Some href => if truthy href then list_links ++ [href] else list_links
               | None => list_links
               end)
            links acc) /\
  (length (fold_left
             (fun list_links link =>
                match tag_get link (py "href") with
                | Some href => if truthy href then list_links ++ [href] else list_links
                | None => list_links
                end)
             links acc)
   <= length acc + length links)%nat.
Proof.
  revert acc; induction links as [|link links IH]; intros acc Hacc; cbn [fold_left].
  - split; [assumption|cbn [List.length] in *; lia].
  - destruct (tag_get link (py "href")) as [href|].
    + destruct (truthy href) eqn:Ht.
      * destruct (IH (acc ++ [href])) as [Hne Hlen].
        { apply Forall_app. split; [assumption|]. repeat constructor.
          intros ->. discriminate Ht. }
        split; [assumption|]. rewrite length_app in Hlen. cbn [List.length] in *. lia.
      * destruct (IH acc Hacc) as [Hne Hlen]. split; [assumption|cbn [List.length] in *; lia].
    + destruct (IH acc Hacc) as [Hne Hlen]. split; [assumption|cbn [List.length] in *; lia].
Qed.

(** X30.  [find_links] raises [AttributeError] on the [None] of a failed
    fetch; on a parsed page it returns at most one link per anchor and
    never an empty link. *)
Theorem find_links_never_empty (soup : Soup) :
  find_links None = Raise AttributeError /\
  exists list_links,
    find_links (Some soup) = Ok list_links /\
    Forall (fun href => href <> []) list_links /\
    (length list_links <= length (find_all soup (py "a")))%nat.
Proof.
  split; [reflexivity|].
  cbn [find_links soup_find_all bind]. eexists. split; [reflexivity|].
  apply (@find_links_fold (find_all soup (py "a")) []). constructor.
Qed.

End ExtractorsExtra.

(** A page of the small site whose only list is a navigation list. *)
Lemma find_bullet_words_outside_text_witness :
  find_bullet_words (ext := Toy.external) (Some Toy.nav_page) = Ok [].
Proof.
  apply (@find_bullet_words_outside_text Toy.external Toy.nav_page).
  repeat constructor.
Defined.
